(** * NexoShop: cart, checkout and fulfilment

    A shallow embedding of the cart/checkout core of the storefront:
    - the tables of [supabase/migrations/...sql] that the client code touches
      ([products], [carts], [cart_items], [orders], [order_items]) with the
      constraints declared there;
    - the handlers of [src/contexts/CartContext.tsx] ([getSessionId],
      [getOrCreateCart], [refreshCart], [addItem], [removeItem],
      [updateQuantity], [clearCart]);
    - the checkout handlers of the Checkout page ([handleShippingSubmit],
      [handlePaymentSubmit], [processOrder]);
    - the admin handler [handleCompleteOrder].

    Every handler is an [async] function over a remote data service.  It is
    embedded as a state transformer over a [World] holding the remote store,
    the browser (local storage, notices, console) and the React state written
    by the [setX] calls.  The values a handler reads from its closure (the
    state of the render that created it) are explicit parameters. *)

From Stdlib Require Import ZArith List String Bool Lia PeanoNat DecimalString.
Import ListNotations.
Local Open Scope string_scope.
Local Open Scope list_scope.
Local Open Scope Z_scope.

(** ** Data model *)

(** Primary keys are UUIDs; only their identity matters. *)
Definition Uuid := nat.

(** [DECIMAL(10,2)] amounts, counted in hundredths.  The client computes
    them on JavaScript numbers; the model computes them exactly. *)
Definition Money := Z.

(** [status TEXT ... CHECK (status IN (...))] *)
Inductive OrderStatus := pending | processing | shipped | delivered | cancelled.

(** The row types follow the columns of the migration.  The TypeScript
    declarations of [Product] and [CartItem] (module [@/types]) are not among
    the sources at hand; the fields kept here are the ones the handlers read
    or write. *)
Record Product := {
  product_id : Uuid;
  product_name : string;
  product_price : Money;
  product_stock : Z
}.

Record Cart := {
  cart_id : Uuid;
  cart_user_id : option Uuid;
  cart_session_id : option string
}.

Record CartItemRow := {
  ci_id : Uuid;
  ci_cart_id : Uuid;
  ci_product_id : Uuid;
  ci_quantity : Z
}.

Record Order := {
  order_id : Uuid;
  order_user_id : Uuid;
  order_status : OrderStatus;
  order_total : Money;
  order_shipping_address : option string;
  order_shipping_city : option string;
  order_payment_method : string;
  order_notes : option string
}.

Record OrderItem := {
  oi_id : Uuid;
  oi_order_id : Uuid;
  oi_product_id : Uuid;
  oi_product_name : string;
  oi_product_price : Money;
  oi_quantity : Z;
  oi_subtotal : Money
}.

(** The store.  [next_uuid] stands for [gen_random_uuid()]: every inserted
    row takes the next unused key. *)
Record Database := {
  products : list Product;
  carts : list Cart;
  cart_items : list CartItemRow;
  orders : list Order;
  order_items : list OrderItem;
  next_uuid : Uuid
}.

(** A cart line as the client holds it: a [cart_items] row joined with its
    product (the [select] of [refreshCart], which embeds [products]). *)
Record CartItem := {
  item_id : Uuid;
  item_cart_id : Uuid;
  item_product_id : Uuid;
  item_quantity : Z;
  item_products : option Product
}.

(** ** The data service *)

Inductive PostgrestError :=
| ServiceFailure      (* transport failure, policy or constraint not listed below *)
| NoRows              (* [.single()] on an empty result *)
| MultipleRows        (* [.single()] / [.maybeSingle()] on several rows *)
| UniqueViolation     (* UNIQUE (cart_id, product_id) *)
| CheckViolation      (* CHECK (quantity > 0), cart_user_or_session *)
| ForeignKeyViolation.

(** What an awaited query resolves to: [{ data, error }].  The client never
    rejects the promise; a failure is reported in [error]. *)
Record Response (A : Type) := { data : option A; error : option PostgrestError }.
Arguments data {A} _.
Arguments error {A} _.

Definition ok {A} (a : A) : Response A := {| data := Some a; error := None |}.
Definition done : Response unit := {| data := None; error := None |}.
Definition failed {A} (e : PostgrestError) : Response A :=
  {| data := None; error := Some e |}.

Definition succeeded {A} (r : Response A) : bool :=
  match error r with None => true | Some _ => false end.

Module Postgres.

(** [.eq('user_id', user.id)] or [.eq('session_id', sessionId).is('user_id', null)] *)
Definition cart_matches (user : option Uuid) (sessionId : string) (c : Cart) : bool :=
  match user with
  | Some u =>
      match cart_user_id c with Some u' => Nat.eqb u' u | None => false end
  | None =>
      match cart_session_id c, cart_user_id c with
      | Some s, None => String.eqb s sessionId
      | _, _ => false
      end
  end.

(** [from('carts').select('id') ... .maybeSingle()] *)
Definition select_cart (user : option Uuid) (sessionId : string) (d : Database)
  : Response Uuid * Database :=
  match filter (cart_matches user sessionId) (carts d) with
  | [] => ({| data := None; error := None |}, d)
  | [c] => (ok (cart_id c), d)
  | _ :: _ :: _ => (failed MultipleRows, d)
  end.

(** [from('carts').insert(...).select('id').single()] *)
Definition insert_cart (user : option Uuid) (session : option string) (d : Database)
  : Response Uuid * Database :=
  match user, session with
  | None, None => (failed CheckViolation, d)
  | _, _ =>
      let c := {| cart_id := next_uuid d; cart_user_id := user; cart_session_id := session |} in
      (ok (cart_id c),
       {| products := products d; carts := carts d ++ [c]; cart_items := cart_items d;
          orders := orders d; order_items := order_items d; next_uuid := S (next_uuid d) |})
  end.

Definition find_product (pid : Uuid) (d : Database) : option Product :=
  find (fun p => Nat.eqb (product_id p) pid) (products d).

Definition join_product (d : Database) (r : CartItemRow) : CartItem :=
  {| item_id := ci_id r; item_cart_id := ci_cart_id r; item_product_id := ci_product_id r;
     item_quantity := ci_quantity r; item_products := find_product (ci_product_id r) d |}.

(** [from('cart_items').select(...).eq('cart_id', id)], each row with its
    product embedded *)
Definition select_cart_items (cid : Uuid) (d : Database) : Response (list CartItem) * Database :=
  (ok (map (join_product d) (filter (fun r => Nat.eqb (ci_cart_id r) cid) (cart_items d))), d).

Definition with_cart_items (d : Database) (rows : list CartItemRow) : Database :=
  {| products := products d; carts := carts d; cart_items := rows;
     orders := orders d; order_items := order_items d; next_uuid := next_uuid d |}.

(** [from('cart_items').insert({ cart_id, product_id, quantity })] under
    the table's foreign keys, [CHECK (quantity > 0)] and
    [UNIQUE (cart_id, product_id)]. *)
Definition insert_cart_item (cid pid : Uuid) (quantity : Z) (d : Database)
  : Response unit * Database :=
  if negb (existsb (fun c => Nat.eqb (cart_id c) cid) (carts d)) then (failed ForeignKeyViolation, d)
  else if negb (existsb (fun p => Nat.eqb (product_id p) pid) (products d)) then (failed ForeignKeyViolation, d)
  else if quantity <=? 0 then (failed CheckViolation, d)
  else if existsb (fun r => Nat.eqb (ci_cart_id r) cid && Nat.eqb (ci_product_id r) pid) (cart_items d)
  then (failed UniqueViolation, d)
  else
    let r := {| ci_id := next_uuid d; ci_cart_id := cid; ci_product_id := pid; ci_quantity := quantity |} in
    (done,
     {| products := products d; carts := carts d; cart_items := cart_items d ++ [r];
        orders := orders d; order_items := order_items d; next_uuid := S (next_uuid d) |}).

(** [from('cart_items').delete().eq('id', itemId)] *)
Definition delete_cart_item (itemId : Uuid) (d : Database) : Response unit * Database :=
  (done, with_cart_items d (filter (fun r => negb (Nat.eqb (ci_id r) itemId)) (cart_items d))).

Definition set_quantity (itemId : Uuid) (quantity : Z) (r : CartItemRow) : CartItemRow :=
  if Nat.eqb (ci_id r) itemId
  then {| ci_id := ci_id r; ci_cart_id := ci_cart_id r; ci_product_id := ci_product_id r;
          ci_quantity := quantity |}
  else r.

(** [from('cart_items').update({ quantity }).eq('id', itemId)] *)
Definition update_cart_item (itemId : Uuid) (quantity : Z) (d : Database)
  : Response unit * Database :=
  if (quantity <=? 0) && existsb (fun r => Nat.eqb (ci_id r) itemId) (cart_items d)
  then (failed CheckViolation, d)
  else (done, with_cart_items d (map (set_quantity itemId quantity) (cart_items d))).

(** [from('cart_items').delete().eq('cart_id', cartId)] *)
Definition delete_cart_items_of (cid : Uuid) (d : Database) : Response unit * Database :=
  (done, with_cart_items d (filter (fun r => negb (Nat.eqb (ci_cart_id r) cid)) (cart_items d))).

(** [from('products').select('stock').eq('id', pid).single()] *)
Definition select_stock (pid : Uuid) (d : Database) : Response Z * Database :=
  match filter (fun p => Nat.eqb (product_id p) pid) (products d) with
  | [] => (failed NoRows, d)
  | [p] => (ok (product_stock p), d)
  | _ :: _ :: _ => (failed MultipleRows, d)
  end.

Definition set_stock (pid : Uuid) (stock : Z) (p : Product) : Product :=
  if Nat.eqb (product_id p) pid
  then {| product_id := product_id p; product_name := product_name p;
          product_price := product_price p; product_stock := stock |}
  else p.

(** [from('products').update({ stock }).eq('id', pid)] *)
Definition update_stock (pid : Uuid) (stock : Z) (d : Database) : Response unit * Database :=
  (done,
   {| products := map (set_stock pid stock) (products d); carts := carts d;
      cart_items := cart_items d; orders := orders d; order_items := order_items d;
      next_uuid := next_uuid d |}).

Definition set_status (oid : Uuid) (s : OrderStatus) (o : Order) : Order :=
  if Nat.eqb (order_id o) oid
  then {| order_id := order_id o; order_user_id := order_user_id o; order_status := s;
          order_total := order_total o; order_shipping_address := order_shipping_address o;
          order_shipping_city := order_shipping_city o;
          order_payment_method := order_payment_method o; order_notes := order_notes o |}
  else o.

(** [from('orders').update({ status }).eq('id', oid)] *)
Definition update_order_status (oid : Uuid) (s : OrderStatus) (d : Database)
  : Response unit * Database :=
  (done,
   {| products := products d; carts := carts d; cart_items := cart_items d;
      orders := map (set_status oid s) (orders d); order_items := order_items d;
      next_uuid := next_uuid d |}).

(** [from('orders').insert({...}).select('id').single()]; the argument
    carries the submitted columns, its [order_id] is assigned here. *)
Definition insert_order (o : Order) (d : Database) : Response Uuid * Database :=
  let row := {| order_id := next_uuid d; order_user_id := order_user_id o;
                order_status := order_status o; order_total := order_total o;
                order_shipping_address := order_shipping_address o;
                order_shipping_city := order_shipping_city o;
                order_payment_method := order_payment_method o;
                order_notes := order_notes o |} in
  (ok (order_id row),
   {| products := products d; carts := carts d; cart_items := cart_items d;
      orders := orders d ++ [row]; order_items := order_items d;
      next_uuid := S (next_uuid d) |}).

(** [from('order_items').insert({...})] under the foreign keys to
    [orders] and [products]. *)
Definition insert_order_item (i : OrderItem) (d : Database) : Response unit * Database :=
  if negb (existsb (fun o => Nat.eqb (order_id o) (oi_order_id i)) (orders d))
  then (failed ForeignKeyViolation, d)
  else if negb (existsb (fun p => Nat.eqb (product_id p) (oi_product_id i)) (products d))
  then (failed ForeignKeyViolation, d)
  else
    let row := {| oi_id := next_uuid d; oi_order_id := oi_order_id i;
                  oi_product_id := oi_product_id i; oi_product_name := oi_product_name i;
                  oi_product_price := oi_product_price i; oi_quantity := oi_quantity i;
                  oi_subtotal := oi_subtotal i |} in
    (done,
     {| products := products d; carts := carts d; cart_items := cart_items d;
        orders := orders d; order_items := order_items d ++ [row];
        next_uuid := S (next_uuid d) |}).

End Postgres.

(** ** The world a handler runs in *)

(** Requests sent to the data service, in the client's vocabulary. *)
Inductive Call :=
| SelectCart (user : option Uuid) (sessionId : string)
| InsertCart (user : option Uuid) (session : option string)
| SelectCartItems (cid : Uuid)
| InsertCartItem (cid pid : Uuid) (quantity : Z)
| DeleteCartItem (itemId : Uuid)
| UpdateCartItem (itemId : Uuid) (quantity : Z)
| DeleteCartItemsOf (cid : Uuid)
| SelectStock (pid : Uuid)
| UpdateStock (pid : Uuid) (stock : Z)
| UpdateOrderStatus (oid : Uuid) (s : OrderStatus)
| InsertOrder (o : Order)
| InsertOrderItem (i : OrderItem).

(** The remote side.  [faults] is the environment's schedule: the n-th
    request from now fails without touching the store iff its n-th entry is
    [true] (an exhausted schedule means no further failure).  It stands for
    everything outside the tables' own constraints: transport errors and
    row-level-security refusals.  [log] records every request with whether it
    succeeded, newest first. *)
Record Server := {
  db : Database;
  faults : list bool;
  log : list (Call * bool)
}.

(** What a [catch] block receives. *)
Inductive Exception :=
| PostgrestException (e : PostgrestError)   (* [throw error] *)
| TypeError.                                (* property read on [null] *)

Inductive Toast := toast_success (message : string) | toast_error (message : string).

(** [localStorage] holds the single key [cart_session_id]; [entropy] feeds
    [crypto.randomUUID]; [toasts] and [console] are newest first. *)
Record Browser := {
  localStorage : option string;
  entropy : nat;
  toasts : list Toast;
  console : list (string * Exception)
}.

Inductive CheckoutStep := shipping | payment | confirmation | success.

(** React state: [CartProvider] ([items], [cartId], [loading]), [Checkout]
    ([step], [processing]) and [Admin] ([updatingOrderId]).  [st_reloads]
    counts the [loadData()] refreshes an admin handler has started without
    awaiting them; they only read. *)
Record State := {
  st_items : list CartItem;
  st_cartId : option Uuid;
  st_loading : bool;
  st_step : CheckoutStep;
  st_processing : bool;
  st_updatingOrderId : option Uuid;
  st_reloads : nat
}.

Record World := {
  server : Server;
  browser : Browser;
  state : State
}.

Definition with_server (w : World) (s : Server) : World :=
  {| server := s; browser := browser w; state := state w |}.
Definition with_browser (w : World) (b : Browser) : World :=
  {| server := server w; browser := b; state := state w |}.
Definition with_state (w : World) (s : State) : World :=
  {| server := server w; browser := browser w; state := s |}.

(** ** Asynchronous computations *)

Inductive Outcome (A : Type) :=
| Returned (a : A)
| Thrown (e : Exception).
Arguments Returned {A} a.
Arguments Thrown {A} e.

(** An [async] function body run to completion: awaits are sequential. *)
Definition Async (A : Type) := World -> Outcome A * World.

Definition ret {A} (a : A) : Async A := fun w => (Returned a, w).

Definition bind {A B} (m : Async A) (k : A -> Async B) : Async B :=
  fun w =>
    match m w with
    | (Returned a, w') => k a w'
    | (Thrown e, w') => (Thrown e, w')
    end.

Definition throw {A} (e : Exception) : Async A := fun w => (Thrown e, w).

(** [try { body } catch (e) { handler }] *)
Definition try_catch {A} (body : Async A) (handler : Exception -> Async A) : Async A :=
  fun w =>
    match body w with
    | (Returned a, w') => (Returned a, w')
    | (Thrown e, w') => handler e w'
    end.

(** [try { body } finally { cleanup }] *)
Definition finally {A} (body : Async A) (cleanup : Async unit) : Async A :=
  fun w =>
    match body w with
    | (r, w') =>
        match cleanup w' with
        | (Returned _, w'') => (r, w'')
        | (Thrown e, w'') => (Thrown e, w'')
        end
    end.

Declare Scope async_scope.
Delimit Scope async_scope with async.
Notation "x <- m ;; k" := (bind m (fun x => k))
  (at level 100, m at next level, right associativity) : async_scope.
Notation "m ;; k" := (bind m (fun _ => k))
  (at level 100, right associativity) : async_scope.
Local Open Scope async_scope.

(** [for (const x of xs) { await body(x) }] *)
Fixpoint for_of {A} (xs : list A) (body : A -> Async unit) : Async unit :=
  match xs with
  | [] => ret tt
  | x :: rest => body x ;; for_of rest body
  end.

Definition run {A} (m : Async A) (w : World) : World := snd (m w).
Definition result {A} (m : Async A) (w : World) : Outcome A := fst (m w).

(** [await supabase.from(...)...]: one request.  The client module
    ([@/integrations/supabase/client]) and the service behind it are not
    among the sources at hand; the protocol is the one the call sites rely
    on ([const { data, error } = await ...; if (error) throw error]): the
    promise always resolves, to [{ data, error }].  The schedule decides
    whether the request reaches the store. *)
Definition request {A} (c : Call) (exec : Database -> Response A * Database)
  : Async (Response A) :=
  fun w =>
    let s := server w in
    match faults s with
    | true :: rest =>
        (Returned (failed ServiceFailure),
         with_server w {| db := db s; faults := rest; log := (c, false) :: log s |})
    | _ =>
        let (r, d') := exec (db s) in
        (Returned r,
         with_server w {| db := d'; faults := tl (faults s); log := (c, succeeded r) :: log s |})
    end.

Definition toast (t : Toast) : Async unit :=
  fun w =>
    let b := browser w in
    (Returned tt,
     with_browser w {| localStorage := localStorage b; entropy := entropy b;
                       toasts := t :: toasts b; console := console b |}).

Definition console_error (label : string) (e : Exception) : Async unit :=
  fun w =>
    let b := browser w in
    (Returned tt,
     with_browser w {| localStorage := localStorage b; entropy := entropy b;
                       toasts := toasts b; console := (label, e) :: console b |}).

Definition localStorage_getItem : Async (option string) :=
  fun w => (Returned (localStorage (browser w)), w).

Definition localStorage_setItem (v : string) : Async unit :=
  fun w =>
    let b := browser w in
    (Returned tt,
     with_browser w {| localStorage := Some v; entropy := entropy b;
                       toasts := toasts b; console := console b |}).

(** [crypto.randomUUID()]: a fresh, non-empty token. *)
Definition randomUUID : Async string :=
  fun w =>
    let b := browser w in
    (Returned (String.append "uuid-" (NilEmpty.string_of_uint (Nat.to_uint (entropy b)))),
     with_browser w {| localStorage := localStorage b; entropy := S (entropy b);
                       toasts := toasts b; console := console b |}).

Definition setItems (v : list CartItem) : Async unit :=
  fun w =>
    let s := state w in
    (Returned tt,
     with_state w {| st_items := v; st_cartId := st_cartId s; st_loading := st_loading s;
                     st_step := st_step s; st_processing := st_processing s;
                     st_updatingOrderId := st_updatingOrderId s; st_reloads := st_reloads s |}).

Definition setCartId (v : option Uuid) : Async unit :=
  fun w =>
    let s := state w in
    (Returned tt,
     with_state w {| st_items := st_items s; st_cartId := v; st_loading := st_loading s;
                     st_step := st_step s; st_processing := st_processing s;
                     st_updatingOrderId := st_updatingOrderId s; st_reloads := st_reloads s |}).

Definition setLoading (v : bool) : Async unit :=
  fun w =>
    let s := state w in
    (Returned tt,
     with_state w {| st_items := st_items s; st_cartId := st_cartId s; st_loading := v;
                     st_step := st_step s; st_processing := st_processing s;
                     st_updatingOrderId := st_updatingOrderId s; st_reloads := st_reloads s |}).

Definition setStep (v : CheckoutStep) : Async unit :=
  fun w =>
    let s := state w in
    (Returned tt,
     with_state w {| st_items := st_items s; st_cartId := st_cartId s; st_loading := st_loading s;
                     st_step := v; st_processing := st_processing s;
                     st_updatingOrderId := st_updatingOrderId s; st_reloads := st_reloads s |}).

Definition setProcessing (v : bool) : Async unit :=
  fun w =>
    let s := state w in
    (Returned tt,
     with_state w {| st_items := st_items s; st_cartId := st_cartId s; st_loading := st_loading s;
                     st_step := st_step s; st_processing := v;
                     st_updatingOrderId := st_updatingOrderId s; st_reloads := st_reloads s |}).

Definition setUpdatingOrderId (v : option Uuid) : Async unit :=
  fun w =>
    let s := state w in
    (Returned tt,
     with_state w {| st_items := st_items s; st_cartId := st_cartId s; st_loading := st_loading s;
                     st_step := st_step s; st_processing := st_processing s;
                     st_updatingOrderId := v; st_reloads := st_reloads s |}).

(** [loadData()] called without [await]: the refresh is started and the
    handler goes on; the refresh itself only reads the store. *)
Definition start_loadData : Async unit :=
  fun w =>
    let s := state w in
    (Returned tt,
     with_state w {| st_items := st_items s; st_cartId := st_cartId s; st_loading := st_loading s;
                     st_step := st_step s; st_processing := st_processing s;
                     st_updatingOrderId := st_updatingOrderId s; st_reloads := S (st_reloads s) |}).

(** JavaScript's [x ?? d] and [x || d] on a possibly missing number or string. *)
Definition nullish {A} (x : option A) (d : A) : A :=
  match x with Some a => a | None => d end.

Definition or_zero (x : option Z) : Z :=
  match x with Some n => if n =? 0 then 0 else n | None => 0 end.

Definition or_empty (x : option string) : string :=
  match x with Some s => s | None => "" end.

(** [!s] for a string: only the empty string is falsy. *)
Definition blank (s : string) : bool := String.eqb s "".

(** ** src/contexts/CartContext.tsx *)

Definition getSessionId : Async string :=
  sessionId <- localStorage_getItem ;;
  match sessionId with
  | Some s => if blank s then (u <- randomUUID ;; localStorage_setItem u ;; ret u) else ret s
  | None => u <- randomUUID ;; localStorage_setItem u ;; ret u
  end.

Definition itemCount (items : list CartItem) : Z :=
  fold_left (fun sum item => sum + item_quantity item) items 0.

Definition total (items : list CartItem) : Money :=
  fold_left
    (fun sum item =>
       let price := nullish (option_map product_price (item_products item)) 0 in
       sum + price * item_quantity item)
    items 0.

Section CartProvider.

(** The render's closure: [useAuth().user] and the [useState] values. *)
Variable user : option Uuid.
Variable items : list CartItem.
Variable cartId : option Uuid.

Definition getOrCreateCart : Async Uuid :=
  sessionId <- getSessionId ;;
  existingCart <- request (SelectCart user sessionId) (Postgres.select_cart user sessionId) ;;
  match data existingCart with
  | Some id => ret id
  | None =>
      let session := match user with Some _ => None | None => Some sessionId end in
      newCart <- request (InsertCart user session) (Postgres.insert_cart user session) ;;
      match error newCart with
      | Some e => throw (PostgrestException e)
      | None =>
          match data newCart with
          | Some id => ret id
          | None => throw TypeError
          end
      end
  end.

Definition refreshCart : Async unit :=
  finally
    (try_catch
       (setLoading true ;;
        id <- getOrCreateCart ;;
        setCartId (Some id) ;;
        r <- request (SelectCartItems id) (Postgres.select_cart_items id) ;;
        match error r with
        | Some e => throw (PostgrestException e)
        | None => setItems (nullish (data r) [])
        end)
       (fun e => console_error "Error loading cart:" e))
    (setLoading false).

Definition removeItem (itemId : Uuid) : Async unit :=
  try_catch
    (request (DeleteCartItem itemId) (Postgres.delete_cart_item itemId) ;;
     setItems (filter (fun item => negb (Nat.eqb (item_id item) itemId)) items) ;;
     toast (toast_success "Producto eliminado"))
    (fun _ => toast (toast_error "Error al eliminar producto")).

Definition with_quantity (item : CartItem) (quantity : Z) : CartItem :=
  {| item_id := item_id item; item_cart_id := item_cart_id item;
     item_product_id := item_product_id item; item_quantity := quantity;
     item_products := item_products item |}.

Definition updateQuantity (itemId : Uuid) (quantity : Z) : Async unit :=
  try_catch
    (if quantity <=? 0 then removeItem itemId
     else
       request (UpdateCartItem itemId quantity) (Postgres.update_cart_item itemId quantity) ;;
       setItems (map (fun item => if Nat.eqb (item_id item) itemId
                                  then with_quantity item quantity else item) items))
    (fun _ => toast (toast_error "Error al actualizar cantidad")).

Definition addItem (product : Product) (quantity : Z) : Async unit :=
  try_catch
    (id <- match cartId with Some id => ret id | None => getOrCreateCart end ;;
     let existingItem :=
       find (fun item => Nat.eqb (item_product_id item) (product_id product)) items in
     match existingItem with
     | Some existingItem =>
         updateQuantity (item_id existingItem) (item_quantity existingItem + quantity)
     | None =>
         request (InsertCartItem id (product_id product) quantity)
                 (Postgres.insert_cart_item id (product_id product) quantity) ;;
         refreshCart
     end ;;
     toast (toast_success "Producto agregado al carrito"))
    (fun e => toast (toast_error "Error al agregar producto") ;;
              console_error "" e).

Definition clearCart : Async unit :=
  try_catch
    (match cartId with
     | Some id =>
         request (DeleteCartItemsOf id) (Postgres.delete_cart_items_of id) ;;
         setItems []
     | None => ret tt
     end)
    (fun e => console_error "Error clearing cart:" e).

End CartProvider.

(** The closure of the next render: what [useCart()] hands out once the
    state has settled. *)
Definition rendered_items (w : World) : list CartItem := st_items (state w).
Definition rendered_cartId (w : World) : option Uuid := st_cartId (state w).

(** ** The Checkout page *)

Record ShippingData := {
  fullName : string;
  address : string;
  city : string;
  phone : string;
  notes : string
}.

Record CardData := {
  card_number : string;
  card_expiry : string;
  card_cvv : string;
  card_name : string
}.

Section Checkout.

(** The closure of the Checkout render.  [user] is not null here: the
    page returns early otherwise (as it does on an empty cart before the
    [success] step).  [items] and [cartId] come from [useCart()]; [cartId]
    is the one [clearCart] was created with, and the [total] of the context
    is [total items]. *)
Variable user : Uuid.
Variable items : list CartItem.
Variable cartId : option Uuid.
Variable shippingData : ShippingData.
Variable paymentMethod : string.
Variable cardData : CardData.

(** [e.preventDefault()] only stops the browser's own form submission. *)
Definition handleShippingSubmit : Async unit :=
  if blank (fullName shippingData) || blank (address shippingData) || blank (city shippingData)
  then toast (toast_error "Por favor completa todos los campos requeridos")
  else setStep payment.

Definition handlePaymentSubmit : Async unit :=
  if String.eqb paymentMethod "card"
     && (blank (card_number cardData) || blank (card_expiry cardData)
         || blank (card_cvv cardData) || blank (card_name cardData))
  then toast (toast_error "Por favor completa los datos de la tarjeta")
  else setStep confirmation.

(** The row submitted for the order; its key is assigned by the store. *)
Definition order_payload : Order :=
  {| order_id := 0%nat;
     order_user_id := user;
     order_status := pending;
     order_total := total items;
     order_shipping_address := Some (address shippingData);
     order_shipping_city := Some (city shippingData);
     order_payment_method := paymentMethod;
     order_notes := if blank (notes shippingData) then None else Some (notes shippingData) |}.

(** The snapshot submitted for one cart line. *)
Definition order_item_payload (oid : Uuid) (item : CartItem) : OrderItem :=
  {| oi_id := 0%nat;
     oi_order_id := oid;
     oi_product_id := item_product_id item;
     oi_product_name := or_empty (option_map product_name (item_products item));
     oi_product_price := or_zero (option_map product_price (item_products item));
     oi_quantity := item_quantity item;
     oi_subtotal := or_zero (option_map product_price (item_products item)) * item_quantity item |}.

(** The simulated payment, [await new Promise(r => setTimeout(r, 2000))],
    is a pause without effect. *)
Definition processOrder : Async unit :=
  setProcessing true ;;
  finally
    (try_catch
       (order <- request (InsertOrder order_payload) (Postgres.insert_order order_payload) ;;
        match error order with
        | Some e => throw (PostgrestException e)
        | None =>
            for_of items
              (fun item =>
                 match data order with
                 | Some oid =>
                     request (InsertOrderItem (order_item_payload oid item))
                             (Postgres.insert_order_item (order_item_payload oid item)) ;;
                     ret tt
                 | None => throw TypeError
                 end) ;;
            clearCart cartId ;;
            setStep success ;;
            toast (toast_success "¡Compra realizada con éxito!")
        end)
       (fun e => console_error "Error processing order:" e ;;
                 toast (toast_error "Error al procesar el pedido. Inténtalo de nuevo.")))
    (setProcessing false).

End Checkout.

(** ** The Admin page *)

(** An order as [loadData] fetched it, with its [order_items] embedded. *)
Record FetchedOrder := {
  fetched_id : Uuid;
  fetched_order_items : list OrderItem
}.

Definition handleCompleteOrder (order : FetchedOrder) : Async unit :=
  setUpdatingOrderId (Some (fetched_id order)) ;;
  finally
    (try_catch
       (for_of (fetched_order_items order)
          (fun item =>
             product <- request (SelectStock (oi_product_id item))
                                (Postgres.select_stock (oi_product_id item)) ;;
             match error product with
             | Some productError => throw (PostgrestException productError)
             | None =>
                 let newStock := Z.max 0 (or_zero (data product) - oi_quantity item) in
                 request (UpdateStock (oi_product_id item) newStock)
                         (Postgres.update_stock (oi_product_id item) newStock) ;;
                 ret tt
             end) ;;
        r <- request (UpdateOrderStatus (fetched_id order) delivered)
                     (Postgres.update_order_status (fetched_id order) delivered) ;;
        match error r with
        | Some orderError => throw (PostgrestException orderError)
        | None =>
            toast (toast_success "Pedido completado y stock actualizado") ;;
            start_loadData
        end)
       (fun e => console_error "Error completing order:" e ;;
                 toast (toast_error "Error al completar el pedido")))
    (setUpdatingOrderId None).

(** ** Vocabulary of the proofs *)

(** [m] keeps [P]: whatever [m] does from a world satisfying [P], returning
    or throwing, the world it leaves satisfies [P]. *)
Definition preserves (P : World -> Prop) {A} (m : Async A) : Prop :=
  forall w, P w -> P (snd (m w)).

(** A property of the store alone is untouched by the browser and by
    [setX], and kept by a request as soon as the query run keeps it (a
    failed request does not reach the store). *)
Definition on_db (Q : Database -> Prop) : World -> Prop :=
  fun w => Q (db (server w)).

Definition stocks_nonneg (d : Database) : Prop :=
  Forall (fun p => 0 <= product_stock p) (products d).

(** The stock table after one order line, in the words of the design:
    the referenced product gets [max(0, currentStock - quantity)]. *)
Definition fulfil (ps : list Product) (item : OrderItem) : list Product :=
  map (fun p =>
         if Nat.eqb (product_id p) (oi_product_id item)
         then {| product_id := product_id p; product_name := product_name p;
                 product_price := product_price p;
                 product_stock := Z.max 0 (product_stock p - oi_quantity item) |}
         else p)
      ps.

(** The body of the stock loop of [handleCompleteOrder]. *)
Definition complete_item (item : OrderItem) : Async unit :=
  product <- request (SelectStock (oi_product_id item))
                     (Postgres.select_stock (oi_product_id item)) ;;
  match error product with
  | Some productError => throw (PostgrestException productError)
  | None =>
      let newStock := Z.max 0 (or_zero (data product) - oi_quantity item) in
      request (UpdateStock (oi_product_id item) newStock)
              (Postgres.update_stock (oi_product_id item) newStock) ;;
      ret tt
  end.

(** The carts an owner key selects: the rows the lookup of
    [getOrCreateCart] filters on. *)
Definition carts_of (user : option Uuid) (sessionId : string) (d : Database) : list Cart :=
  filter (Postgres.cart_matches user sessionId) (carts d).

(** [UNIQUE (cart_id, product_id)]: a cart holds at most one line per product. *)
Definition line_key (r : CartItemRow) : Uuid * Uuid := (ci_cart_id r, ci_product_id r).



(** The lines of cart [cid] as [refreshCart] loads them. *)
Definition loaded_items (cid : Uuid) (d : Database) : list CartItem :=
  map (Postgres.join_product d) (filter (fun r => Nat.eqb (ci_cart_id r) cid) (cart_items d)).






(** [l1] is [l2] with some elements left out, the order being kept. *)
Inductive subsequence {A : Type} : list A -> list A -> Prop :=
| subsequence_nil : subsequence [] []
| subsequence_take x l1 l2 : subsequence l1 l2 -> subsequence (x :: l1) (x :: l2)
| subsequence_skip x l1 l2 : subsequence l1 l2 -> subsequence l1 (x :: l2).


(** [m] always returns: no exception leaves it, whatever the world. *)
Definition never_throws {A} (m : Async A) : Prop :=
  forall w, exists a, fst (m w) = Returned a.

(** A cart row names exactly one owner: a user and no session token, or a
    session token and no user. *)
Definition one_owner (c : Cart) : Prop :=
  match cart_user_id c, cart_session_id c with
  | Some _, None => True
  | None, Some _ => True
  | _, _ => False
  end.

Definition carts_one_owner (d : Database) : Prop := Forall one_owner (carts d).

(** The [carts] table is [before] followed by carts that each name exactly
    one owner. *)
Definition carts_appended (before : list Cart) (d : Database) : Prop :=
  exists created, carts d = before ++ created /\ Forall one_owner created.

(** A property of the page alone: the React state, the notices shown and
    the console.  Requests and local storage do not touch it. *)
Definition on_page (R : State -> list Toast -> list (string * Exception) -> Prop)
  : World -> Prop :=
  fun w => R (state w) (toasts (browser w)) (console (browser w)).

(** ** Worked scenarios *)

Module Scenario.

Definition product_A : Product :=
  {| product_id := 1%nat; product_name := "A"; product_price := 1000; product_stock := 3 |}.
Definition product_B : Product :=
  {| product_id := 2%nat; product_name := "B"; product_price := 550; product_stock := 7 |}.

Definition catalog : Database :=
  {| products := [product_A; product_B]; carts := []; cart_items := [];
     orders := []; order_items := []; next_uuid := 10%nat |}.

Definition fresh_state : State :=
  {| st_items := []; st_cartId := None; st_loading := true; st_step := shipping;
     st_processing := false; st_updatingOrderId := None; st_reloads := 0%nat |}.

(** An anonymous visitor whose session token is already stored. *)
Definition visitor (d : Database) (schedule : list bool) : World :=
  {| server := {| db := d; faults := schedule; log := [] |};
     browser := {| localStorage := Some "tok-1"; entropy := 0%nat; toasts := []; console := [] |};
     state := fresh_state |}.

(** An order of five units of product A, whose stock is three. *)
Definition five_of_A : FetchedOrder :=
  {| fetched_id := 5%nat;
     fetched_order_items :=
       [{| oi_id := 6%nat; oi_order_id := 5%nat; oi_product_id := 1%nat;
           oi_product_name := "A"; oi_product_price := 1000; oi_quantity := 5;
           oi_subtotal := 5000 |}] |}.

(** The provider mounts ([useEffect] runs [refreshCart]); the visitor then
    adds one A and, from the next render, two more. *)
Definition mounted : World := run (refreshCart None) (visitor catalog []).

Definition one_A : World :=
  run (addItem None (rendered_items mounted) (rendered_cartId mounted) product_A 1) mounted.

Definition three_A : World :=
  run (addItem None (rendered_items one_A) (rendered_cartId one_A) product_A 2) one_A.

Definition shipping_without_address : ShippingData :=
  {| fullName := "Ana"; address := ""; city := "Quito"; phone := ""; notes := "" |}.

(** A signed-in customer (user 7) puts two A and one B in the cart and
    fills in the shipping form. *)
Definition customer : Uuid := 7%nat.

Definition customer_mounted : World :=
  run (refreshCart (Some customer)) (visitor catalog []).

Definition customer_two_A : World :=
  run (addItem (Some customer) (rendered_items customer_mounted)
               (rendered_cartId customer_mounted) product_A 2) customer_mounted.

Definition customer_cart : World :=
  run (addItem (Some customer) (rendered_items customer_two_A)
               (rendered_cartId customer_two_A) product_B 1) customer_two_A.

Definition shipping_form : ShippingData :=
  {| fullName := "Ana"; address := "Av. Amazonas 1"; city := "Quito"; phone := ""; notes := "" |}.

Definition card_form : CardData :=
  {| card_number := "4111 1111 1111 1111"; card_expiry := "12/30"; card_cvv := "123";
     card_name := "ANA" |}.

(** The customer goes through the shipping and payment steps. *)
Definition customer_confirming : World :=
  run (handlePaymentSubmit "card" card_form)
      (run (handleShippingSubmit shipping_form) customer_cart).

Definition checked_out : World :=
  run (processOrder customer (rendered_items customer_confirming)
                    (rendered_cartId customer_confirming) shipping_form "card")
      customer_confirming.

(** The same world under another failure schedule. *)
Definition with_schedule (w : World) (schedule : list bool) : World :=
  with_server w {| db := db (server w); faults := schedule; log := log (server w) |}.


(** The order of [checked_out] as the admin page has fetched it. *)
Definition placed_order : FetchedOrder :=
  {| fetched_id := 13%nat;
     fetched_order_items := order_items (db (server checked_out)) |}.

(** The admin completes the order; the stock update of the first line (the
    second request) fails. *)
Definition completed_with_failed_update : World :=
  run (handleCompleteOrder placed_order) (with_schedule checked_out [false; true]).

(** The admin completes the order; the stock of the first line cannot be
    fetched. *)
Definition completed_with_failed_fetch : World :=
  run (handleCompleteOrder placed_order) (with_schedule checked_out [true]).

(** The customer adds one A from the freshly mounted, empty cart, and the
    insertion request fails. *)
Definition add_with_failed_insert : World :=
  run (addItem (Some customer) (rendered_items customer_mounted)
               (rendered_cartId customer_mounted) product_A 1)
      (with_schedule customer_mounted [true]).

(** The customer adds one A twice from the same render (the second call
    still sees the empty list), every request reaching the store. *)
Definition added_twice_from_one_render : World :=
  run (addItem (Some customer) (rendered_items customer_mounted)
               (rendered_cartId customer_mounted) product_A 1)
      (run (addItem (Some customer) (rendered_items customer_mounted)
                    (rendered_cartId customer_mounted) product_A 1)
           customer_mounted).

Definition shipping_with_spaces : ShippingData :=
  {| fullName := "Ana"; address := "   "; city := "Quito"; phone := ""; notes := "" |}.

(** The customer's cart is looked up again, and the lookup request fails. *)
Definition lookup_failed : World :=
  run (getOrCreateCart (Some customer)) (with_schedule customer_mounted [true]).

(** A first visit: the lookup finds no cart and the insertion of one fails. *)
Definition first_visit_insert_fails : World := visitor catalog [false; true].

Definition empty_card : CardData :=
  {| card_number := ""; card_expiry := ""; card_cvv := ""; card_name := "" |}.

End Scenario.

(** * Verification *)

(** ** Properties kept by every handler step *)

Section Preservation.

Variable P : World -> Prop.

Lemma preserves_ret {A} (a : A) : preserves P (ret a).
Proof. intros w H; exact H. Qed.

Lemma preserves_throw {A} (e : Exception) : preserves P (@throw A e).
Proof. intros w H; exact H. Qed.

Lemma preserves_bind {A B} (m : Async A) (k : A -> Async B) :
  preserves P m -> (forall a, preserves P (k a)) -> preserves P (bind m k).
Proof.
  intros Hm Hk w H. unfold bind.
  specialize (Hm w H). destruct (m w) as [[a | e] w']; simpl in *.
  - now apply Hk.
  - exact Hm.
Qed.

Lemma preserves_try_catch {A} (body : Async A) (handler : Exception -> Async A) :
  preserves P body -> (forall e, preserves P (handler e)) -> preserves P (try_catch body handler).
Proof.
  intros Hb Hh w H. unfold try_catch.
  specialize (Hb w H). destruct (body w) as [[a | e] w']; simpl in *.
  - exact Hb.
  - now apply Hh.
Qed.

Lemma preserves_finally {A} (body : Async A) (cleanup : Async unit) :
  preserves P body -> preserves P cleanup -> preserves P (finally body cleanup).
Proof.
  intros Hb Hc w H. unfold finally.
  specialize (Hb w H). destruct (body w) as [r w']; simpl in *.
  specialize (Hc w' Hb). destruct (cleanup w') as [[[] | e] w'']; exact Hc.
Qed.

Lemma preserves_for_of {A} (xs : list A) (body : A -> Async unit) :
  (forall x, preserves P (body x)) -> preserves P (for_of xs body).
Proof.
  intros Hb. induction xs as [| x rest IH]; simpl.
  - apply preserves_ret.
  - apply preserves_bind; auto.
Qed.

End Preservation.

Section StorePreservation.

Variable Q : Database -> Prop.

Lemma preserves_request {A} (c : Call) (exec : Database -> Response A * Database) :
  (forall d, Q d -> Q (snd (exec d))) -> preserves (on_db Q) (request c exec).
Proof.
  intros Hexec w H. unfold request, on_db in *.
  destruct (faults (server w)) as [| [|] rest]; simpl.
  - specialize (Hexec _ H). destruct (exec (db (server w))); exact Hexec.
  - exact H.
  - specialize (Hexec _ H). destruct (exec (db (server w))); exact Hexec.
Qed.

Lemma preserves_toast t : preserves (on_db Q) (toast t).
Proof. intros w H; exact H. Qed.
Lemma preserves_console_error l e : preserves (on_db Q) (console_error l e).
Proof. intros w H; exact H. Qed.
Lemma preserves_localStorage_getItem : preserves (on_db Q) localStorage_getItem.
Proof. intros w H; exact H. Qed.
Lemma preserves_localStorage_setItem v : preserves (on_db Q) (localStorage_setItem v).
Proof. intros w H; exact H. Qed.
Lemma preserves_randomUUID : preserves (on_db Q) randomUUID.
Proof. intros w H; exact H. Qed.
Lemma preserves_setItems v : preserves (on_db Q) (setItems v).
Proof. intros w H; exact H. Qed.
Lemma preserves_setCartId v : preserves (on_db Q) (setCartId v).
Proof. intros w H; exact H. Qed.
Lemma preserves_setLoading v : preserves (on_db Q) (setLoading v).
Proof. intros w H; exact H. Qed.
Lemma preserves_setStep v : preserves (on_db Q) (setStep v).
Proof. intros w H; exact H. Qed.
Lemma preserves_setProcessing v : preserves (on_db Q) (setProcessing v).
Proof. intros w H; exact H. Qed.
Lemma preserves_setUpdatingOrderId v : preserves (on_db Q) (setUpdatingOrderId v).
Proof. intros w H; exact H. Qed.
Lemma preserves_start_loadData : preserves (on_db Q) start_loadData.
Proof. intros w H; exact H. Qed.

End StorePreservation.

Create HintDb preserve.
#[local] Hint Resolve preserves_ret preserves_throw preserves_toast preserves_console_error
  preserves_localStorage_getItem preserves_localStorage_setItem preserves_randomUUID
  preserves_setItems preserves_setCartId preserves_setLoading preserves_setStep
  preserves_setProcessing preserves_setUpdatingOrderId preserves_start_loadData : preserve.

(** Walks through a handler body: sequencing, exception handling, loops and
    case analysis are structural; what is left are the requests. *)
Ltac preserve_step :=
  match goal with
  | |- preserves _ (bind _ _) => apply preserves_bind; [| intros ?]
  | |- preserves _ (try_catch _ _) => apply preserves_try_catch; [| intros ?]
  | |- preserves _ (finally _ _) => apply preserves_finally
  | |- preserves _ (for_of _ _) => apply preserves_for_of; intros ?
  | |- preserves _ (request _ _) => apply preserves_request
  | |- preserves _ (match ?x with _ => _ end) => destruct x
  | |- preserves _ _ => solve [auto with preserve]
  end.
Ltac preserve := repeat preserve_step.

Lemma preserves_getSessionId Q : preserves (on_db Q) getSessionId.
Proof. unfold getSessionId. preserve. Qed.
#[local] Hint Resolve preserves_getSessionId : preserve.

(** ** Fulfilment: stock never goes below zero *)

Lemma update_stock_nonneg pid s d :
  0 <= s -> stocks_nonneg d -> stocks_nonneg (snd (Postgres.update_stock pid s d)).
Proof.
  unfold stocks_nonneg; simpl. intros Hs H.
  apply Forall_map. eapply Forall_impl; [| exact H].
  intros p Hp. unfold Postgres.set_stock.
  destruct (Nat.eqb (product_id p) pid); simpl; assumption.
Qed.

Lemma select_stock_db pid d : snd (Postgres.select_stock pid d) = d.
Proof.
  unfold Postgres.select_stock.
  destruct (filter _ (products d)) as [| p [| q rest]]; reflexivity.
Qed.

Lemma handleCompleteOrder_nonneg order :
  preserves (on_db stocks_nonneg) (handleCompleteOrder order).
Proof.
  unfold handleCompleteOrder. preserve.
  - intros d H. now rewrite select_stock_db.
  - intros d H. apply update_stock_nonneg; [lia | exact H].
  - intros d H. exact H.
Qed.

(** ** Running a handler when no request fails *)

Lemma request_ok {A} (c : Call) (exec : Database -> Response A * Database) w :
  faults (server w) = [] ->
  request c exec w =
    (Returned (fst (exec (db (server w)))),
     with_server w {| db := snd (exec (db (server w))); faults := [];
                      log := (c, succeeded (fst (exec (db (server w))))) :: log (server w) |}).
Proof.
  intros H. unfold request. rewrite H.
  destruct (exec (db (server w))); reflexivity.
Qed.

Lemma bind_returned {A B} (m : Async A) (k : A -> Async B) w a w' :
  m w = (Returned a, w') -> bind m k w = k a w'.
Proof. intros H. unfold bind. now rewrite H. Qed.

Lemma bind_thrown {A B} (m : Async A) (k : A -> Async B) w e w' :
  m w = (Thrown e, w') -> bind m k w = (Thrown e, w').
Proof. intros H. unfold bind. now rewrite H. Qed.

Lemma or_zero_some n : or_zero (Some n) = n.
Proof. unfold or_zero. destruct (Z.eqb_spec n 0); congruence. Qed.

(** ** Running a handler under any failure schedule *)

Lemma request_reaches {A} (c : Call) (exec : Database -> Response A * Database) w :
  hd false (faults (server w)) = false ->
  request c exec w =
    (Returned (fst (exec (db (server w)))),
     with_server w {| db := snd (exec (db (server w))); faults := tl (faults (server w));
                      log := (c, succeeded (fst (exec (db (server w))))) :: log (server w) |}).
Proof.
  intros H. unfold request.
  destruct (faults (server w)) as [| [|] rest]; simpl in H; try discriminate;
    destruct (exec (db (server w))); reflexivity.
Qed.

Lemma request_fails {A} (c : Call) (exec : Database -> Response A * Database) w :
  hd false (faults (server w)) = true ->
  request c exec w =
    (Returned (failed ServiceFailure),
     with_server w {| db := db (server w); faults := tl (faults (server w));
                      log := (c, false) :: log (server w) |}).
Proof.
  intros H. unfold request.
  destruct (faults (server w)) as [| [|] rest]; simpl in H; try discriminate. reflexivity.
Qed.

(** ** Fulfilment: what one completed order does to the stock *)

Lemma fulfil_ids ps item : map product_id (fulfil ps item) = map product_id ps.
Proof.
  unfold fulfil. rewrite map_map. apply map_ext.
  intros p. destruct (Nat.eqb (product_id p) (oi_product_id item)); reflexivity.
Qed.

Lemma filter_none {A} (f : A -> bool) (l : list A) :
  (forall x, In x l -> f x = false) -> filter f l = [].
Proof.
  induction l as [| a l IH]; simpl; intros H; [reflexivity |].
  rewrite (H a (or_introl eq_refl)). apply IH. intros x Hx. apply H. now right.
Qed.

Lemma filter_by_key ps pid :
  NoDup (map product_id ps) -> In pid (map product_id ps) ->
  exists p, filter (fun q => Nat.eqb (product_id q) pid) ps = [p] /\ product_id p = pid.
Proof.
  induction ps as [| q ps IH]; simpl; intros Hnd Hin; [contradiction |].
  inversion Hnd as [| ? ? Hnotin Hnd']; subst.
  destruct (Nat.eqb_spec (product_id q) pid) as [Heq | Hne].
  - exists q. split; [| exact Heq].
    f_equal. apply filter_none. intros x Hx. apply Nat.eqb_neq. intros E.
    apply Hnotin. rewrite Heq, <- E. now apply in_map.
  - destruct Hin as [Hin | Hin]; [contradiction |]. now apply IH.
Qed.

Lemma handleCompleteOrder_loop order :
  handleCompleteOrder order =
    (setUpdatingOrderId (Some (fetched_id order)) ;;
     finally
       (try_catch
          (for_of (fetched_order_items order) complete_item ;;
           r <- request (UpdateOrderStatus (fetched_id order) delivered)
                        (Postgres.update_order_status (fetched_id order) delivered) ;;
           match error r with
           | Some orderError => throw (PostgrestException orderError)
           | None =>
               toast (toast_success "Pedido completado y stock actualizado") ;;
               start_loadData
           end)
          (fun e => console_error "Error completing order:" e ;;
                    toast (toast_error "Error al completar el pedido")))
       (setUpdatingOrderId None)).
Proof. reflexivity. Qed.

Lemma complete_item_ok item w :
  faults (server w) = [] ->
  NoDup (map product_id (products (db (server w)))) ->
  In (oi_product_id item) (map product_id (products (db (server w)))) ->
  exists w',
    complete_item item w = (Returned tt, w') /\
    faults (server w') = [] /\
    products (db (server w')) = fulfil (products (db (server w))) item.
Proof.
  intros Hf Hnd Hin.
  destruct (filter_by_key _ _ Hnd Hin) as (p & Hp & Hid).
  unfold complete_item.
  erewrite bind_returned; [| apply request_ok; exact Hf].
  unfold Postgres.select_stock at 1. rewrite Hp. cbn [fst error ok data].
  erewrite bind_returned; [| apply request_ok; reflexivity].
  eexists; split; [reflexivity |]. split; [reflexivity |].
  cbn. unfold Postgres.select_stock. rewrite Hp. cbn.
  unfold fulfil. apply map_ext_in. intros q Hq.
  unfold Postgres.set_stock.
  destruct (Nat.eqb_spec (product_id q) (oi_product_id item)) as [Heq | Hne]; [| reflexivity].
  assert (Hq' : In q (filter (fun q => Nat.eqb (product_id q) (oi_product_id item))
                             (products (db (server w))))).
  { apply filter_In. split; [exact Hq | now apply Nat.eqb_eq]. }
  rewrite Hp in Hq'. destruct Hq' as [<- | []].
  destruct (Z.eqb_spec (product_stock p) 0) as [E | E]; [rewrite E |]; reflexivity.
Qed.

Lemma complete_items_ok items : forall w,
  faults (server w) = [] ->
  NoDup (map product_id (products (db (server w)))) ->
  (forall item, In item items ->
                In (oi_product_id item) (map product_id (products (db (server w))))) ->
  exists w',
    for_of items complete_item w = (Returned tt, w') /\
    faults (server w') = [] /\
    products (db (server w')) = fold_left fulfil items (products (db (server w))).
Proof.
  induction items as [| item rest IH]; intros w Hf Hnd Hin.
  - exists w. repeat split; assumption.
  - destruct (complete_item_ok item w Hf Hnd (Hin item (or_introl eq_refl)))
      as (w1 & Hrun & Hf1 & Hps1).
    destruct (IH w1 Hf1) as (w2 & Hrun2 & Hf2 & Hps2).
    + rewrite Hps1, fulfil_ids. exact Hnd.
    + intros i Hi. rewrite Hps1, fulfil_ids. apply Hin. now right.
    + exists w2. split; [| split; [exact Hf2 |]].
      * simpl. erewrite bind_returned; [exact Hrun2 | exact Hrun].
      * rewrite Hps2, Hps1. reflexivity.
Qed.

Lemma subsequence_empty {A} (l : list A) : subsequence [] l.
Proof. induction l; constructor; assumption. Qed.

(** Under any failure schedule, one pass of the loop body either leaves the
    stock table as it is or gives the referenced product the stock
    [max(0, currentStock - quantity)]. *)
Lemma complete_item_effect item w :
  products (db (server (run (complete_item item) w))) = products (db (server w)) \/
  products (db (server (run (complete_item item) w))) = fulfil (products (db (server w))) item.
Proof.
  unfold run, complete_item.
  destruct (hd false (faults (server w))) eqn:Hh.
  - left. erewrite bind_returned; [| apply request_fails; exact Hh]. reflexivity.
  - erewrite bind_returned; [| apply request_reaches; exact Hh].
    unfold Postgres.select_stock.
    destruct (filter (fun q => Nat.eqb (product_id q) (oi_product_id item))
                     (products (db (server w)))) as [| p [| p' rest]] eqn:Hp;
      cbn [fst snd error data ok failed]; try (left; reflexivity).
    match goal with
    | |- context [bind (request ?c ?exec) ?k ?w1] =>
        destruct (hd false (faults (server w1))) eqn:Hh1;
          [ erewrite (bind_returned (request c exec) k w1);
              [| apply request_fails; exact Hh1]
          | erewrite (bind_returned (request c exec) k w1);
              [| apply request_reaches; exact Hh1] ]
    end.
    + left. reflexivity.
    + right. cbn. unfold fulfil. apply map_ext_in. intros q Hq.
      unfold Postgres.set_stock.
      destruct (Nat.eqb_spec (product_id q) (oi_product_id item)) as [Heq | Hne];
        [| reflexivity].
      assert (Hq' : In q (filter (fun q => Nat.eqb (product_id q) (oi_product_id item))
                                 (products (db (server w))))).
      { apply filter_In. split; [exact Hq | now apply Nat.eqb_eq]. }
      rewrite Hp in Hq'. destruct Hq' as [<- | []].
      destruct (Z.eqb_spec (product_stock p) 0) as [E | E]; [rewrite E |]; reflexivity.
Qed.

Lemma complete_items_effect items : forall w,
  exists applied,
    subsequence applied items /\
    products (db (server (run (for_of items complete_item) w))) =
      fold_left fulfil applied (products (db (server w))).
Proof.
  induction items as [| item rest IH]; intros w.
  - exists []. split; [constructor | reflexivity].
  - unfold run. simpl. unfold bind.
    pose proof (complete_item_effect item w) as Hstep. unfold run in Hstep.
    destruct (complete_item item w) as [[[] | e] w1]; cbn [snd] in *.
    + destruct (IH w1) as (applied & Hsub & Hps). unfold run in Hps.
      destruct Hstep as [Hsame | Hdone].
      * exists applied. split; [now constructor |]. now rewrite Hps, Hsame.
      * exists (item :: applied). split; [now constructor |]. now rewrite Hps, Hdone.
    + destruct Hstep as [Hsame | Hdone].
      * exists []. split; [apply subsequence_empty | exact Hsame].
      * exists [item]. split; [constructor; apply subsequence_empty | exact Hdone].
Qed.

(** What follows the stock loop does not touch the stock table. *)
Lemma after_stock_loop order w0 :
  products (db (server (snd
    (finally
       (try_catch
          (for_of (fetched_order_items order) complete_item ;;
           r <- request (UpdateOrderStatus (fetched_id order) delivered)
                        (Postgres.update_order_status (fetched_id order) delivered) ;;
           match error r with
           | Some orderError => throw (PostgrestException orderError)
           | None =>
               toast (toast_success "Pedido completado y stock actualizado") ;;
               start_loadData
           end)
          (fun e => console_error "Error completing order:" e ;;
                    toast (toast_error "Error al completar el pedido")))
       (setUpdatingOrderId None) w0)))) =
  products (db (server (snd (for_of (fetched_order_items order) complete_item w0)))).
Proof.
  unfold finally, try_catch, bind.
  destruct (for_of (fetched_order_items order) complete_item w0) as [[[] | e] w1];
    [| reflexivity].
  unfold request.
  destruct (faults (server w1)) as [| [|] rest]; reflexivity.
Qed.

Lemma handleCompleteOrder_stock_after_loop order w :
  products (db (server (run (handleCompleteOrder order) w))) =
    products (db (server (run (for_of (fetched_order_items order) complete_item)
                              (snd (setUpdatingOrderId (Some (fetched_id order)) w))))).
Proof.
  unfold run at 1. rewrite handleCompleteOrder_loop.
  erewrite bind_returned; [| reflexivity].
  exact (after_stock_loop order (snd (setUpdatingOrderId (Some (fetched_id order)) w))).
Qed.

(** C1.  [handleCompleteOrder] never drives a stock below zero, whatever the
    order lines and whichever requests fail: every line either leaves the
    stock table as it is or gives the referenced product the stock
    [max(0, currentStock - quantity)].  When no request fails (the
    referenced products being stored under distinct keys) every line takes
    effect: the stock table left is the one obtained by giving, line after
    line, the referenced product the stock [max(0, currentStock - quantity)]. *)
Theorem handleCompleteOrder_clamps_stock (order : FetchedOrder) (w : World) :
  stocks_nonneg (db (server w)) ->
  stocks_nonneg (db (server (run (handleCompleteOrder order) w))) /\
  (exists applied,
     subsequence applied (fetched_order_items order) /\
     products (db (server (run (handleCompleteOrder order) w))) =
       fold_left fulfil applied (products (db (server w)))) /\
  (faults (server w) = [] ->
   NoDup (map product_id (products (db (server w)))) ->
   (forall item, In item (fetched_order_items order) ->
                 In (oi_product_id item) (map product_id (products (db (server w))))) ->
   products (db (server (run (handleCompleteOrder order) w))) =
     fold_left fulfil (fetched_order_items order) (products (db (server w)))).
Proof.
  intros Hnonneg. split; [| split].
  - exact (handleCompleteOrder_nonneg order w Hnonneg).
  - rewrite handleCompleteOrder_stock_after_loop.
    apply (complete_items_effect (fetched_order_items order)
             (snd (setUpdatingOrderId (Some (fetched_id order)) w))).
  - intros Hf Hnd Hin. rewrite handleCompleteOrder_stock_after_loop.
    destruct (complete_items_ok (fetched_order_items order)
                (snd (setUpdatingOrderId (Some (fetched_id order)) w)) Hf Hnd Hin)
      as (w' & Hloop & _ & Hps).
    unfold run. rewrite Hloop. exact Hps.
Qed.

Lemma handleCompleteOrder_clamps_stock_witness :
  stocks_nonneg Scenario.catalog /\
  map product_stock
      (products (db (server (run (handleCompleteOrder Scenario.five_of_A)
                                 (Scenario.visitor Scenario.catalog []))))) = [0; 7].
Proof.
  assert (H : stocks_nonneg Scenario.catalog).
  { repeat constructor; simpl; lia. }
  split; [exact H |].
  destruct (handleCompleteOrder_clamps_stock Scenario.five_of_A
              (Scenario.visitor Scenario.catalog []) H) as (_ & _ & Hfold).
  rewrite Hfold.
  - reflexivity.
  - reflexivity.
  - simpl. repeat constructor; simpl; intuition congruence.
  - simpl. intros item [<- | []]. simpl. now left.
Defined.

(** ** The cart: clearing, removing, setting a quantity *)

(** C10.  With no cart resolved ([cartId] is [null]) [clearCart] does
    nothing at all: it returns leaving the world as it was, so no request is
    sent and neither the stored lines nor the local list change. *)
Theorem clearCart_without_cart (w : World) :
  clearCart None w = (Returned tt, w) /\
  log (server (run (clearCart None) w)) = log (server w) /\
  cart_items (db (server (run (clearCart None) w))) = cart_items (db (server w)) /\
  st_items (state (run (clearCart None) w)) = st_items (state w).
Proof. repeat split. Qed.








(** ** Checkout: the shipping step *)

(** C7.  Submitting the shipping step with an empty full name, address or
    city is rejected on the spot: an error notice is shown, nothing is sent
    to the data service, and the React state (the step in particular) stays
    as it was. *)
Theorem handleShippingSubmit_rejects_blank (shippingData : ShippingData) (w : World) :
  fullName shippingData = "" \/ address shippingData = "" \/ city shippingData = "" ->
  result (handleShippingSubmit shippingData) w = Returned tt /\
  st_step (state (run (handleShippingSubmit shippingData) w)) = st_step (state w) /\
  state (run (handleShippingSubmit shippingData) w) = state w /\
  server (run (handleShippingSubmit shippingData) w) = server w /\
  toasts (browser (run (handleShippingSubmit shippingData) w)) =
    toast_error "Por favor completa todos los campos requeridos" :: toasts (browser w).
Proof.
  intros H. unfold handleShippingSubmit.
  assert (Hb : blank (fullName shippingData) || blank (address shippingData)
               || blank (city shippingData) = true).
  { unfold blank. destruct H as [-> | [-> | ->]]; simpl;
      rewrite ?orb_true_r; reflexivity. }
  rewrite Hb. repeat split.
Qed.

Lemma handleShippingSubmit_rejects_blank_witness :
  address Scenario.shipping_without_address = "" /\
  st_step (state (run (handleShippingSubmit Scenario.shipping_without_address)
                      (Scenario.visitor Scenario.catalog []))) = shipping.
Proof.
  split; [reflexivity |].
  destruct (handleShippingSubmit_rejects_blank Scenario.shipping_without_address
              (Scenario.visitor Scenario.catalog []) (or_intror (or_introl eq_refl)))
    as (_ & Hstep & _).
  rewrite Hstep. reflexivity.
Defined.

(** With the three required fields filled in, the flow moves on to the
    payment step; the test is on emptiness only, so spaces count as filled. *)
Lemma handleShippingSubmit_advances (shippingData : ShippingData) (w : World) :
  fullName shippingData <> "" -> address shippingData <> "" -> city shippingData <> "" ->
  st_step (state (run (handleShippingSubmit shippingData) w)) = payment /\
  server (run (handleShippingSubmit shippingData) w) = server w /\
  toasts (browser (run (handleShippingSubmit shippingData) w)) = toasts (browser w).
Proof.
  intros Hn Ha Hc. unfold handleShippingSubmit, blank.
  apply String.eqb_neq in Hn, Ha, Hc. rewrite Hn, Ha, Hc. repeat split.
Qed.

Example handleShippingSubmit_accepts_spaces :
  st_step (state (run (handleShippingSubmit Scenario.shipping_with_spaces)
                      (Scenario.visitor Scenario.catalog []))) = payment.
Proof. reflexivity. Qed.

(** ** The cart of an owner *)

Lemma randomUUID_not_blank n :
  blank (String.append "uuid-" (NilEmpty.string_of_uint (Nat.to_uint n))) = false.
Proof. reflexivity. Qed.

(** [getSessionId] returns the stored token, or stores the one it draws;
    either way the token is then in local storage and is not empty. *)
Lemma getSessionId_persists w :
  exists sid w1,
    getSessionId w = (Returned sid, w1) /\
    server w1 = server w /\ state w1 = state w /\
    localStorage (browser w1) = Some sid /\ blank sid = false.
Proof.
  unfold getSessionId, bind, localStorage_getItem.
  destruct (localStorage (browser w)) as [s |] eqn:Hs.
  - destruct (blank s) eqn:Hb.
    + eexists _, _. split; [reflexivity |]. repeat split.
    + exists s, w. repeat split; assumption.
  - eexists _, _. split; [reflexivity |]. repeat split.
Qed.

Lemma getSessionId_stable sid w :
  localStorage (browser w) = Some sid -> blank sid = false ->
  getSessionId w = (Returned sid, w).
Proof.
  intros Hs Hb. unfold getSessionId, bind, localStorage_getItem.
  rewrite Hs, Hb. reflexivity.
Qed.






(** Outside the hypotheses of C5: the lookup's error is not looked at, so a
    lookup that fails is taken for "no cart" and a second cart is inserted
    for the owner. *)
Example getOrCreateCart_failed_lookup_duplicates :
  map cart_id (carts_of (Some Scenario.customer) "tok-1"
                        (db (server Scenario.customer_mounted))) = [10%nat] /\
  result (getOrCreateCart (Some Scenario.customer))
         (Scenario.with_schedule Scenario.customer_mounted [true]) = Returned 11%nat /\
  map cart_id (carts_of (Some Scenario.customer) "tok-1"
                        (db (server Scenario.lookup_failed))) = [10%nat; 11%nat].
Proof. repeat split. Qed.

(** ** The cart: one line per product *)







Lemma select_cart_db user sid d : snd (Postgres.select_cart user sid d) = d.
Proof.
  unfold Postgres.select_cart.
  destruct (filter _ (carts d)) as [| c [| c' rest]]; reflexivity.
Qed.

Lemma insert_cart_cart_items user session d :
  cart_items (snd (Postgres.insert_cart user session d)) = cart_items d.
Proof. unfold Postgres.insert_cart. destruct user, session; reflexivity. Qed.











(** ** Checkout: the order and its lines *)






Lemma existsb_key_in {A} (key : A -> Uuid) (l : list A) (k : Uuid) :
  In k (map key l) -> existsb (fun x => Nat.eqb (key x) k) l = true.
Proof.
  intros H. apply in_map_iff in H. destruct H as (x & Hk & Hx).
  apply existsb_exists. exists x. split; [exact Hx | now apply Nat.eqb_eq].
Qed.







(** The scenario of the design: two A at 10.00 and one B at 5.50 give a
    total of 25.50 and the lines (A, 10.00, 2, 20.00) and (B, 5.50, 1, 5.50). *)
Example checkout_of_two_A_and_one_B :
  map order_total (orders (db (server Scenario.checked_out))) = [2550] /\
  map (fun r => (oi_product_name r, oi_product_price r, oi_quantity r, oi_subtotal r))
      (order_items (db (server Scenario.checked_out))) =
    [("A", 1000, 2, 2000); ("B", 550, 1, 550)] /\
  cart_items (db (server Scenario.checked_out)) = [] /\
  st_step (state Scenario.checked_out) = success.
Proof. repeat split. Qed.


(** ** Checkout: emptying the cart *)





(** ** Fulfilment: the order status and failing requests *)

(** The status is written by the last request only, sent once the stock
    loop has run through all the lines: if the loop throws (a stock could
    not be fetched), the orders are left as they were. *)
Lemma complete_item_orders X item :
  preserves (on_db (fun d => orders d = X)) (complete_item item).
Proof.
  unfold complete_item. preserve.
  - intros d H. now rewrite select_stock_db.
  - intros d H. exact H.
Qed.

Lemma handleCompleteOrder_status_after_loop order w e w' :
  for_of (fetched_order_items order) complete_item
         (snd (setUpdatingOrderId (Some (fetched_id order)) w)) = (Thrown e, w') ->
  orders (db (server (run (handleCompleteOrder order) w))) = orders (db (server w)).
Proof.
  intros Hloop.
  assert (Horders : orders (db (server w')) = orders (db (server w))).
  { pose proof (preserves_for_of (on_db (fun d => orders d = orders (db (server w))))
                  (fetched_order_items order) complete_item
                  (complete_item_orders _)
                  (snd (setUpdatingOrderId (Some (fetched_id order)) w)) eq_refl) as H.
    rewrite Hloop in H. exact H. }
  unfold run. rewrite handleCompleteOrder_loop.
  erewrite bind_returned; [| reflexivity].
  unfold finally, try_catch.
  erewrite bind_thrown; [| exact Hloop].
  cbn. exact Horders.
Qed.

(** A stock that cannot be fetched stops the completion: the order stays
    [pending], the stocks are untouched and an error is shown. *)
Example handleCompleteOrder_failed_fetch :
  map order_status (orders (db (server Scenario.completed_with_failed_fetch))) = [pending] /\
  map product_stock (products (db (server Scenario.completed_with_failed_fetch))) = [3; 7] /\
  hd_error (toasts (browser Scenario.completed_with_failed_fetch)) =
    Some (toast_error "Error al completar el pedido").
Proof. repeat split. Qed.

(** C8 fails on a stock update that fails: its response is not looked at.
    Completing the order of two A and one B when the update of A's stock
    fails goes on with B, marks the order [delivered] and announces that the
    stock was updated, although A's stock is still 3. *)
Theorem handleCompleteOrder_delivered_despite_failed_update :
  map order_status (orders (db (server Scenario.checked_out))) = [pending] /\
  map product_stock (products (db (server Scenario.checked_out))) = [3; 7] /\
  map (fun r => (oi_product_id r, oi_quantity r))
      (fetched_order_items Scenario.placed_order) = [(1%nat, 2); (2%nat, 1)] /\
  firstn 5 (log (server Scenario.completed_with_failed_update)) =
    [(UpdateOrderStatus 13%nat delivered, true);
     (UpdateStock 2%nat 6, true); (SelectStock 2%nat, true);
     (UpdateStock 1%nat 1, false); (SelectStock 1%nat, true)] /\
  map order_status (orders (db (server Scenario.completed_with_failed_update))) = [delivered] /\
  map product_stock (products (db (server Scenario.completed_with_failed_update))) = [3; 6] /\
  hd_error (toasts (browser Scenario.completed_with_failed_update)) =
    Some (toast_success "Pedido completado y stock actualizado").
Proof. repeat split. Qed.

(** ** The cart: adding a product and failing requests *)

(** C9 fails on an insertion that fails: its response is not looked at.
    Adding one A to the empty cart when the insertion request fails reports
    success, shows no error, and leaves the cart without any line. *)
Theorem addItem_reports_success_without_line :
  rendered_items Scenario.customer_mounted = [] /\
  rendered_cartId Scenario.customer_mounted = Some 10%nat /\
  result (addItem (Some Scenario.customer) (rendered_items Scenario.customer_mounted)
                  (rendered_cartId Scenario.customer_mounted) Scenario.product_A 1)
         (Scenario.with_schedule Scenario.customer_mounted [true]) = Returned tt /\
  firstn 3 (log (server Scenario.add_with_failed_insert)) =
    [(SelectCartItems 10%nat, true); (SelectCart (Some 7%nat) "tok-1", true);
     (InsertCartItem 10%nat 1%nat 1, false)] /\
  cart_items (db (server Scenario.add_with_failed_insert)) = [] /\
  toasts (browser Scenario.add_with_failed_insert) =
    [toast_success "Producto agregado al carrito"] /\
  console (browser Scenario.add_with_failed_insert) = [].
Proof. repeat split. Qed.

(** The same happens without any transport failure when [addItem] runs
    twice from one render: the second call does not see the line of the
    first, its insertion is refused by the uniqueness constraint, and it
    reports success although the quantity stays 1. *)
Example addItem_twice_from_one_render :
  firstn 3 (log (server Scenario.added_twice_from_one_render)) =
    [(SelectCartItems 10%nat, true); (SelectCart (Some 7%nat) "tok-1", true);
     (InsertCartItem 10%nat 1%nat 1, false)] /\
  map ci_quantity (cart_items (db (server Scenario.added_twice_from_one_render))) = [1] /\
  toasts (browser Scenario.added_twice_from_one_render) =
    [toast_success "Producto agregado al carrito";
     toast_success "Producto agregado al carrito"].
Proof. repeat split. Qed.

(** * Further properties of the handlers *)

(** ** Handlers that always return *)

Lemma never_throws_ret {A} (a : A) : never_throws (ret a).
Proof. intros w. now exists a. Qed.

Lemma never_throws_bind {A B} (m : Async A) (k : A -> Async B) :
  never_throws m -> (forall a, never_throws (k a)) -> never_throws (bind m k).
Proof.
  intros Hm Hk w. unfold bind. destruct (Hm w) as (a & Ha).
  destruct (m w) as [r w']. simpl in Ha. subst r. apply Hk.
Qed.

Lemma never_throws_try_catch {A} (body : Async A) (handler : Exception -> Async A) :
  (forall e, never_throws (handler e)) -> never_throws (try_catch body handler).
Proof.
  intros Hh w. unfold try_catch. destruct (body w) as [[a | e] w'].
  - now exists a.
  - apply Hh.
Qed.

Lemma never_throws_finally {A} (body : Async A) (cleanup : Async unit) :
  never_throws body -> never_throws cleanup -> never_throws (finally body cleanup).
Proof.
  intros Hb Hc w. unfold finally. destruct (Hb w) as (a & Ha).
  destruct (body w) as [r w']. simpl in Ha. subst r.
  destruct (Hc w') as (u & Hu). destruct (cleanup w') as [r' w'']. simpl in Hu. subst r'.
  now exists a.
Qed.

Lemma never_throws_for_of {A} (xs : list A) (body : A -> Async unit) :
  (forall x, never_throws (body x)) -> never_throws (for_of xs body).
Proof.
  intros Hb. induction xs as [| x rest IH]; simpl.
  - apply never_throws_ret.
  - apply never_throws_bind; auto.
Qed.

Lemma never_throws_request {A} (c : Call) (exec : Database -> Response A * Database) :
  never_throws (request c exec).
Proof.
  intros w. unfold request.
  destruct (faults (server w)) as [| [|] rest]; simpl; eauto;
    destruct (exec (db (server w))); simpl; eauto.
Qed.

Lemma never_throws_toast t : never_throws (toast t).
Proof. intros w. now exists tt. Qed.
Lemma never_throws_console_error l e : never_throws (console_error l e).
Proof. intros w. now exists tt. Qed.
Lemma never_throws_setItems v : never_throws (setItems v).
Proof. intros w. now exists tt. Qed.
Lemma never_throws_setCartId v : never_throws (setCartId v).
Proof. intros w. now exists tt. Qed.
Lemma never_throws_setLoading v : never_throws (setLoading v).
Proof. intros w. now exists tt. Qed.
Lemma never_throws_setStep v : never_throws (setStep v).
Proof. intros w. now exists tt. Qed.
Lemma never_throws_setProcessing v : never_throws (setProcessing v).
Proof. intros w. now exists tt. Qed.
Lemma never_throws_setUpdatingOrderId v : never_throws (setUpdatingOrderId v).
Proof. intros w. now exists tt. Qed.
Lemma never_throws_start_loadData : never_throws start_loadData.
Proof. intros w. now exists tt. Qed.

Create HintDb returns.
#[local] Hint Resolve never_throws_ret never_throws_request never_throws_toast
  never_throws_console_error never_throws_setItems never_throws_setCartId
  never_throws_setLoading never_throws_setStep never_throws_setProcessing
  never_throws_setUpdatingOrderId never_throws_start_loadData : returns.

(** Walks through a handler body whose exceptions are all caught. *)
Ltac returns_step :=
  match goal with
  | |- never_throws (bind _ _) => apply never_throws_bind; [| intros ?]
  | |- never_throws (try_catch _ _) => apply never_throws_try_catch; intros ?
  | |- never_throws (finally _ _) => apply never_throws_finally
  | |- never_throws (for_of _ _) => apply never_throws_for_of; intros ?
  | |- never_throws (match ?x with _ => _ end) => destruct x
  | |- never_throws _ => solve [auto with returns]
  end.
Ltac returns := repeat returns_step.

Lemma never_throws_result (m : Async unit) (w : World) :
  never_throws m -> result m w = Returned tt.
Proof. intros H. destruct (H w) as ([] & Ha). exact Ha. Qed.

Lemma removeItem_returns items itemId : never_throws (removeItem items itemId).
Proof. unfold removeItem. returns. Qed.

Lemma updateQuantity_returns items itemId q : never_throws (updateQuantity items itemId q).
Proof. unfold updateQuantity. returns. Qed.

Lemma refreshCart_returns user : never_throws (refreshCart user).
Proof. unfold refreshCart. returns. Qed.

Lemma addItem_returns user items cartId product qty :
  never_throws (addItem user items cartId product qty).
Proof. unfold addItem. returns. Qed.

Lemma clearCart_returns cartId : never_throws (clearCart cartId).
Proof. unfold clearCart. returns. Qed.

Lemma processOrder_returns user items cartId shippingData paymentMethod :
  never_throws (processOrder user items cartId shippingData paymentMethod).
Proof. unfold processOrder. returns. Qed.

Lemma handleCompleteOrder_returns order : never_throws (handleCompleteOrder order).
Proof. unfold handleCompleteOrder. returns. Qed.

(** ** The session token *)

(** X1.  [getSessionId] returns a non-empty token that is in local storage
    afterwards, touching neither the store nor the React state; a non-empty
    token already stored is returned as it is, and calling again returns the
    same token without changing anything. *)
Theorem getSessionId_is_stable (w : World) :
  exists sid,
    result getSessionId w = Returned sid /\
    sid <> "" /\
    localStorage (browser (run getSessionId w)) = Some sid /\
    server (run getSessionId w) = server w /\
    state (run getSessionId w) = state w /\
    getSessionId (run getSessionId w) = (Returned sid, run getSessionId w) /\
    (forall s, localStorage (browser w) = Some s -> s <> "" ->
               sid = s /\ run getSessionId w = w).
Proof.
  destruct (getSessionId_persists w) as (sid & w1 & Hrun & Hsv & Hst & Hls & Hnb).
  exists sid. unfold result, run. rewrite Hrun. cbn [fst snd].
  repeat split; try assumption.
  - intros ->. discriminate.
  - now apply getSessionId_stable.
  - pose proof (getSessionId_stable s w H (proj2 (String.eqb_neq s "") H0)) as Hs.
    rewrite Hs in Hrun. now injection Hrun.
  - pose proof (getSessionId_stable s w H (proj2 (String.eqb_neq s "") H0)) as Hs.
    rewrite Hs in Hrun. now injection Hrun.
Qed.

(** ** The owners of the carts *)

Lemma insert_cart_appended before user sid d :
  carts_appended before d ->
  carts_appended before
    (snd (Postgres.insert_cart user (match user with Some _ => None | None => Some sid end) d)).
Proof.
  intros (created & Hc & Hall). unfold Postgres.insert_cart.
  destruct user as [u |]; cbn [snd carts].
  - eexists (created ++ [_]). split; [rewrite Hc, <- app_assoc; reflexivity |].
    apply Forall_app. split; [exact Hall | repeat constructor].
  - eexists (created ++ [_]). split; [rewrite Hc, <- app_assoc; reflexivity |].
    apply Forall_app. split; [exact Hall | repeat constructor].
Qed.

Lemma getOrCreateCart_appends before user :
  preserves (on_db (carts_appended before)) (getOrCreateCart user).
Proof.
  unfold getOrCreateCart. preserve.
  - intros d H. now rewrite select_cart_db.
  - apply insert_cart_appended.
Qed.

Lemma refreshCart_appends before user :
  preserves (on_db (carts_appended before)) (refreshCart user).
Proof.
  unfold refreshCart. preserve.
  - apply getOrCreateCart_appends.
  - intros d H. exact H.
Qed.

Lemma cart_items_only before itemsOf d :
  carts_appended before d -> carts_appended before (Postgres.with_cart_items d itemsOf).
Proof. intros H. exact H. Qed.

Lemma addItem_appends before user items cartId product qty :
  preserves (on_db (carts_appended before)) (addItem user items cartId product qty).
Proof.
  unfold addItem, updateQuantity, removeItem. preserve.
  - apply getOrCreateCart_appends.
  - intros d H. exact H.
  - intros d H. unfold Postgres.update_cart_item. destruct (_ && _); exact H.
  - intros d H. unfold Postgres.insert_cart_item.
    repeat (match goal with |- context [if ?b then _ else _] => destruct b end; try exact H).
  - apply refreshCart_appends.
Qed.

(** X2.  The cart handlers never change or delete a stored cart: resolving
    the cart, reloading it and adding a product only ever append carts, and
    every cart they append names exactly one owner (the user and no session
    token, or the session token and no user), whichever requests fail. *)
Theorem cart_handlers_append_owned_carts
        (user : option Uuid) (items : list CartItem) (cartId : option Uuid)
        (product : Product) (qty : Z) (w : World) :
  carts_appended (carts (db (server w))) (db (server (run (getOrCreateCart user) w))) /\
  carts_appended (carts (db (server w))) (db (server (run (refreshCart user) w))) /\
  carts_appended (carts (db (server w)))
                 (db (server (run (addItem user items cartId product qty) w))).
Proof.
  assert (H0 : on_db (carts_appended (carts (db (server w)))) w).
  { exists []. split; [now rewrite app_nil_r | constructor]. }
  repeat split.
  - exact (getOrCreateCart_appends _ user w H0).
  - exact (refreshCart_appends _ user w H0).
  - exact (addItem_appends _ user items cartId product qty w H0).
Qed.

(** ** What resolving the cart leaves alone *)

Section PagePreservation.

Variable R : State -> list Toast -> list (string * Exception) -> Prop.

Lemma preserves_page_request {A} (c : Call) (exec : Database -> Response A * Database) :
  preserves (on_page R) (request c exec).
Proof.
  intros w H. unfold request, on_page in *.
  destruct (faults (server w)) as [| [|] rest]; simpl;
    try destruct (exec (db (server w))); exact H.
Qed.

Lemma preserves_page_getItem : preserves (on_page R) localStorage_getItem.
Proof. intros w H; exact H. Qed.
Lemma preserves_page_setItem v : preserves (on_page R) (localStorage_setItem v).
Proof. intros w H; exact H. Qed.
Lemma preserves_page_randomUUID : preserves (on_page R) randomUUID.
Proof. intros w H; exact H. Qed.

End PagePreservation.

#[local] Hint Resolve preserves_page_request preserves_page_getItem preserves_page_setItem
  preserves_page_randomUUID : preserve.

Lemma getOrCreateCart_page R user : preserves (on_page R) (getOrCreateCart user).
Proof. unfold getOrCreateCart, getSessionId. preserve. Qed.

Lemma getOrCreateCart_keeps_page user w :
  state (run (getOrCreateCart user) w) = state w /\
  toasts (browser (run (getOrCreateCart user) w)) = toasts (browser w) /\
  console (browser (run (getOrCreateCart user) w)) = console (browser w).
Proof.
  exact (getOrCreateCart_page
           (fun s t c => s = state w /\ t = toasts (browser w) /\ c = console (browser w))
           user w (conj eq_refl (conj eq_refl eq_refl))).
Qed.

(** With no failing request [getOrCreateCart] returns the id of a stored
    cart, whatever the number of carts the owner has. *)
Lemma getOrCreateCart_no_fault user w :
  faults (server w) = [] ->
  exists id w1,
    getOrCreateCart user w = (Returned id, w1) /\
    faults (server w1) = [] /\
    In id (map cart_id (carts (db (server w1)))) /\
    products (db (server w1)) = products (db (server w)) /\
    cart_items (db (server w1)) = cart_items (db (server w)).
Proof.
  intros Hf.
  destruct (getSessionId_persists w) as (sid & w0 & Hsid & Hsv & _ & _ & _).
  assert (Hf0 : faults (server w0) = []) by (rewrite Hsv; exact Hf).
  unfold getOrCreateCart.
  erewrite bind_returned; [| exact Hsid].
  erewrite bind_returned; [| apply request_ok; exact Hf0].
  unfold Postgres.select_cart. rewrite Hsv.
  destruct (filter (Postgres.cart_matches user sid) (carts (db (server w))))
    as [| c [| c' rest]] eqn:Hfilter; cbn [fst snd data error ok failed].
  - erewrite bind_returned; [| apply request_ok; reflexivity].
    cbn [server with_server db]. unfold Postgres.insert_cart.
    destruct user; cbn; eexists _, _; (split; [reflexivity |]);
      (split; [reflexivity |]); (split; [| split; reflexivity]);
      cbn; rewrite map_app; apply in_or_app; right; now left.
  - eexists _, _. split; [reflexivity |]. split; [reflexivity |].
    split; [| split; reflexivity]. cbn.
    apply in_map. apply (proj1 (filter_In (Postgres.cart_matches user sid) c _)).
    rewrite Hfilter. now left.
  - erewrite bind_returned; [| apply request_ok; reflexivity].
    cbn [server with_server db]. unfold Postgres.insert_cart.
    destruct user; cbn; eexists _, _; (split; [reflexivity |]);
      (split; [reflexivity |]); (split; [| split; reflexivity]);
      cbn; rewrite map_app; apply in_or_app; right; now left.
Qed.

(** ** Reloading the cart *)

(** X3.  [refreshCart] never throws and always ends with [loading] off.
    Either it could not load the cart (the cart could not be resolved or the
    lines could not be read): the error is logged and the local list is the
    one it was; or the cart id is set and the local list is the stored lines
    of that cart, each with its product. *)
Theorem refreshCart_settles (user : option Uuid) (w : World) :
  result (refreshCart user) w = Returned tt /\
  st_loading (state (run (refreshCart user) w)) = false /\
  ((exists e,
      console (browser (run (refreshCart user) w)) =
        ("Error loading cart:", e) :: console (browser w) /\
      st_items (state (run (refreshCart user) w)) = st_items (state w))
   \/
   (exists cid,
      console (browser (run (refreshCart user) w)) = console (browser w) /\
      st_cartId (state (run (refreshCart user) w)) = Some cid /\
      st_items (state (run (refreshCart user) w)) =
        loaded_items cid (db (server (run (refreshCart user) w))))).
Proof.
  split; [apply never_throws_result, refreshCart_returns |].
  unfold run, refreshCart, finally, try_catch.
  set (w0 := snd (setLoading true w)).
  rewrite (bind_returned (setLoading true) _ w tt w0 eq_refl).
  destruct (getOrCreateCart_keeps_page user w0) as (Hst & Hto & Hco).
  unfold run in Hst, Hto, Hco.
  destruct (getOrCreateCart user w0) as [[id | e] w1] eqn:Hg; cbn [snd] in Hst, Hto, Hco.
  - erewrite bind_returned; [| exact Hg].
    erewrite bind_returned; [| reflexivity].
    destruct (hd false (faults (server w1))) eqn:Hh.
    + erewrite bind_returned; [| apply request_fails; exact Hh].
      cbn. rewrite Hst, Hco. split; [reflexivity |]. left. eexists. split; reflexivity.
    + erewrite bind_returned; [| apply request_reaches; exact Hh].
      cbn. rewrite Hco. split; [reflexivity |]. right. exists id. repeat split.
  - erewrite bind_thrown; [| exact Hg].
    cbn. rewrite Hst, Hco. split; [reflexivity |]. left. eexists. split; reflexivity.
Qed.

Lemma refreshCart_no_fault (user : option Uuid) (w : World) :
  faults (server w) = [] ->
  exists cid,
    st_cartId (state (run (refreshCart user) w)) = Some cid /\
    In cid (map cart_id (carts (db (server (run (refreshCart user) w))))) /\
    st_items (state (run (refreshCart user) w)) =
      loaded_items cid (db (server (run (refreshCart user) w))) /\
    cart_items (db (server (run (refreshCart user) w))) = cart_items (db (server w)) /\
    console (browser (run (refreshCart user) w)) = console (browser w) /\
    st_loading (state (run (refreshCart user) w)) = false /\
    toasts (browser (run (refreshCart user) w)) = toasts (browser w).
Proof.
  intros Hf.
  unfold run, refreshCart, finally, try_catch.
  set (w0 := snd (setLoading true w)).
  rewrite (bind_returned (setLoading true) _ w tt w0 eq_refl).
  destruct (getOrCreateCart_keeps_page user w0) as (_ & Hto & Hco).
  destruct (getOrCreateCart_no_fault user w0 Hf) as (cid & w1 & Hrun & Hf1 & Hin & _ & Hci).
  unfold run in Hco, Hto. rewrite Hrun in Hco, Hto. cbn [snd] in Hco, Hto.
  erewrite bind_returned; [| exact Hrun].
  erewrite bind_returned; [| reflexivity].
  erewrite bind_returned; [| apply request_ok; exact Hf1].
  cbn. exists cid. rewrite Hco, Hto. repeat split; try assumption.
Qed.

(** X4.  When no request fails, [refreshCart] sets [cartId] to a stored
    cart and the local list to the stored lines of that cart, logs nothing
    and leaves the stored lines as they are. *)
Theorem refreshCart_loads (user : option Uuid) (w : World) :
  faults (server w) = [] ->
  exists cid,
    st_cartId (state (run (refreshCart user) w)) = Some cid /\
    In cid (map cart_id (carts (db (server (run (refreshCart user) w))))) /\
    st_items (state (run (refreshCart user) w)) =
      loaded_items cid (db (server (run (refreshCart user) w))) /\
    cart_items (db (server (run (refreshCart user) w))) = cart_items (db (server w)) /\
    console (browser (run (refreshCart user) w)) = console (browser w) /\
    st_loading (state (run (refreshCart user) w)) = false.
Proof.
  intros Hf.
  destruct (refreshCart_no_fault user w Hf) as (cid & H1 & H2 & H3 & H4 & H5 & H6 & _).
  exists cid. repeat split; assumption.
Qed.

Lemma refreshCart_loads_witness :
  faults (server (Scenario.visitor Scenario.catalog [])) = [] /\
  st_cartId (state Scenario.mounted) = Some 10%nat /\
  st_items (state Scenario.mounted) = [].
Proof.
  split; [reflexivity |].
  destruct (refreshCart_loads None (Scenario.visitor Scenario.catalog []) eq_refl)
    as (cid & Hcid & _ & Hitems & _).
  split; [reflexivity | exact (eq_trans Hitems eq_refl)].
Defined.

(** ** The local list and the stored lines *)

Lemma filter_map_commute {A B} (f : A -> B) (p : B -> bool) (l : list A) :
  filter p (map f l) = map f (filter (fun x => p (f x)) l).
Proof.
  induction l as [| a l IH]; simpl; [reflexivity |].
  destruct (p (f a)); simpl; now rewrite IH.
Qed.

Lemma filter_filter_swap {A} (p q : A -> bool) (l : list A) :
  filter p (filter q l) = filter q (filter p l).
Proof.
  induction l as [| a l IH]; simpl; [reflexivity |].
  destruct (p a) eqn:Hp, (q a) eqn:Hq; simpl; rewrite ?Hp, ?Hq, IH; reflexivity.
Qed.

(** Dropping a line locally is what reloading gives once the stored line
    is deleted. *)
Lemma loaded_items_delete cid itemId d :
  filter (fun item => negb (Nat.eqb (item_id item) itemId)) (loaded_items cid d) =
  loaded_items cid
    (Postgres.with_cart_items d
       (filter (fun r => negb (Nat.eqb (ci_id r) itemId)) (cart_items d))).
Proof.
  unfold loaded_items. cbn [cart_items Postgres.with_cart_items].
  rewrite filter_map_commute. cbn [item_id Postgres.join_product].
  rewrite filter_filter_swap. reflexivity.
Qed.

Lemma loaded_rows_update d cid itemId q rows :
  map (fun item => if Nat.eqb (item_id item) itemId then with_quantity item q else item)
      (map (Postgres.join_product d) (filter (fun r => Nat.eqb (ci_cart_id r) cid) rows)) =
  map (Postgres.join_product d)
      (filter (fun r => Nat.eqb (ci_cart_id r) cid) (map (Postgres.set_quantity itemId q) rows)).
Proof.
  induction rows as [| r rows IH]; [reflexivity |].
  cbn [map filter].
  assert (Hcart : ci_cart_id (Postgres.set_quantity itemId q r) = ci_cart_id r).
  { unfold Postgres.set_quantity. destruct (Nat.eqb (ci_id r) itemId); reflexivity. }
  rewrite Hcart.
  destruct (Nat.eqb (ci_cart_id r) cid); cbn [map]; rewrite IH; [| reflexivity].
  f_equal. unfold Postgres.set_quantity. cbn [item_id Postgres.join_product].
  destruct (Nat.eqb (ci_id r) itemId); reflexivity.
Qed.

(** Setting a quantity locally is what reloading gives once the stored
    line is updated. *)
Lemma loaded_items_update cid itemId q d :
  map (fun item => if Nat.eqb (item_id item) itemId then with_quantity item q else item)
      (loaded_items cid d) =
  loaded_items cid
    (Postgres.with_cart_items d (map (Postgres.set_quantity itemId q) (cart_items d))).
Proof. unfold loaded_items. exact (loaded_rows_update d cid itemId q (cart_items d)). Qed.

(** ** Removing a line *)

(** X5.  [removeItem] never throws and always drops the line from the local
    list and announces the removal.  In the store it deletes the line with
    that id and nothing else when its request goes through (a list that was
    the loaded view of a cart is then still the loaded view; an id that is
    not stored changes nothing); when the request fails the stored lines
    are as they were. *)
Theorem removeItem_effect (items : list CartItem) (itemId : Uuid) (w : World) :
  result (removeItem items itemId) w = Returned tt /\
  st_items (state (run (removeItem items itemId) w)) =
    filter (fun item => negb (Nat.eqb (item_id item) itemId)) items /\
  toasts (browser (run (removeItem items itemId) w)) =
    toast_success "Producto eliminado" :: toasts (browser w) /\
  (hd false (faults (server w)) = true ->
   cart_items (db (server (run (removeItem items itemId) w))) = cart_items (db (server w))) /\
  (hd false (faults (server w)) = false ->
   cart_items (db (server (run (removeItem items itemId) w))) =
     filter (fun r => negb (Nat.eqb (ci_id r) itemId)) (cart_items (db (server w))) /\
   (forall cid, items = loaded_items cid (db (server w)) ->
      st_items (state (run (removeItem items itemId) w)) =
        loaded_items cid (db (server (run (removeItem items itemId) w)))) /\
   (~ In itemId (map ci_id (cart_items (db (server w)))) ->
      cart_items (db (server (run (removeItem items itemId) w))) =
        cart_items (db (server w)))).
Proof.
  split; [apply never_throws_result, removeItem_returns |].
  unfold run, removeItem, try_catch.
  destruct (hd false (faults (server w))) eqn:Hh.
  - erewrite bind_returned; [| apply request_fails; exact Hh].
    cbn. repeat split; discriminate.
  - erewrite bind_returned; [| apply request_reaches; exact Hh].
    cbn. repeat split; try discriminate.
    + intros cid ->. apply loaded_items_delete.
    + intros Hnot. clear Hh.
      induction (cart_items (db (server w))) as [| r rows IH]; simpl; [reflexivity |].
      destruct (Nat.eqb_spec (ci_id r) itemId) as [E | E]; simpl.
      * exfalso. apply Hnot. left. exact E.
      * f_equal. apply IH. intros Hin. apply Hnot. now right.
Qed.

Lemma removeItem_effect_witness :
  hd false (faults (server Scenario.three_A)) = false /\
  cart_items (db (server (run (removeItem (rendered_items Scenario.three_A) 11%nat)
                              Scenario.three_A))) = [].
Proof.
  split; [reflexivity |].
  destruct (removeItem_effect (rendered_items Scenario.three_A) 11%nat Scenario.three_A)
    as (_ & _ & _ & _ & H).
  destruct (H eq_refl) as (Hrows & _). rewrite Hrows. reflexivity.
Defined.

(** ** Setting a quantity *)

(** X6.  [updateQuantity] with a positive quantity never shows an error and
    always sets the quantity in the local list.  When its request goes
    through, a list that was the loaded view of a cart is still the loaded
    view afterwards; when the request fails the stored lines are as they
    were, so the local list and the store disagree from then on. *)
Theorem updateQuantity_local_and_stored
        (items : list CartItem) (itemId : Uuid) (newQty : Z) (w : World) :
  0 < newQty ->
  result (updateQuantity items itemId newQty) w = Returned tt /\
  toasts (browser (run (updateQuantity items itemId newQty) w)) = toasts (browser w) /\
  st_items (state (run (updateQuantity items itemId newQty) w)) =
    map (fun item => if Nat.eqb (item_id item) itemId
                     then with_quantity item newQty else item) items /\
  (hd false (faults (server w)) = false ->
   forall cid, items = loaded_items cid (db (server w)) ->
     st_items (state (run (updateQuantity items itemId newQty) w)) =
       loaded_items cid (db (server (run (updateQuantity items itemId newQty) w)))) /\
  (hd false (faults (server w)) = true ->
   cart_items (db (server (run (updateQuantity items itemId newQty) w))) =
     cart_items (db (server w))).
Proof.
  intros Hq.
  split; [apply never_throws_result, updateQuantity_returns |].
  unfold run, updateQuantity, try_catch.
  replace (newQty <=? 0) with false by (symmetry; apply Z.leb_gt; lia).
  destruct (hd false (faults (server w))) eqn:Hh.
  - erewrite bind_returned; [| apply request_fails; exact Hh].
    cbn. repeat split; discriminate.
  - erewrite bind_returned; [| apply request_reaches; exact Hh].
    unfold Postgres.update_cart_item.
    replace (newQty <=? 0) with false by (symmetry; apply Z.leb_gt; lia).
    cbn. repeat split; try discriminate.
    intros _ cid ->. apply loaded_items_update.
Qed.

Lemma updateQuantity_local_and_stored_witness :
  0 < 5 /\
  st_items (state (run (updateQuantity (rendered_items Scenario.three_A) 11%nat 5)
                       Scenario.three_A)) =
    loaded_items 10%nat
      (db (server (run (updateQuantity (rendered_items Scenario.three_A) 11%nat 5)
                       Scenario.three_A))).
Proof.
  split; [lia |].
  destruct (updateQuantity_local_and_stored (rendered_items Scenario.three_A) 11%nat 5
              Scenario.three_A ltac:(lia)) as (_ & _ & _ & Hsync & _).
  exact (Hsync eq_refl 10%nat eq_refl).
Defined.

(** ** Emptying the cart *)

(** X7.  [clearCart] with a resolved cart never throws, logs nothing and
    always empties the local list; the lines of the other carts are never
    touched.  The lines of the cart itself are all deleted when the request
    goes through, and all still stored when it fails. *)
Theorem clearCart_effect (cid : Uuid) (w : World) :
  result (clearCart (Some cid)) w = Returned tt /\
  st_items (state (run (clearCart (Some cid)) w)) = [] /\
  console (browser (run (clearCart (Some cid)) w)) = console (browser w) /\
  filter (fun r => negb (Nat.eqb (ci_cart_id r) cid))
         (cart_items (db (server (run (clearCart (Some cid)) w)))) =
    filter (fun r => negb (Nat.eqb (ci_cart_id r) cid)) (cart_items (db (server w))) /\
  (hd false (faults (server w)) = false ->
   cart_items (db (server (run (clearCart (Some cid)) w))) =
     filter (fun r => negb (Nat.eqb (ci_cart_id r) cid)) (cart_items (db (server w)))) /\
  (hd false (faults (server w)) = true ->
   cart_items (db (server (run (clearCart (Some cid)) w))) = cart_items (db (server w))).
Proof.
  split; [apply never_throws_result, clearCart_returns |].
  unfold run, clearCart, try_catch.
  destruct (hd false (faults (server w))) eqn:Hh.
  - erewrite bind_returned; [| apply request_fails; exact Hh].
    cbn. repeat split; discriminate.
  - erewrite bind_returned; [| apply request_reaches; exact Hh].
    cbn. repeat split; try discriminate.
    induction (cart_items (db (server w))) as [| r rows IH]; simpl; [reflexivity |].
    destruct (negb (Nat.eqb (ci_cart_id r) cid)) eqn:E; simpl; rewrite ?E, IH; reflexivity.
Qed.

Lemma clearCart_effect_witness :
  hd false (faults (server Scenario.three_A)) = false /\
  cart_items (db (server (run (clearCart (Some 10%nat)) Scenario.three_A))) = [].
Proof.
  split; [reflexivity |].
  destruct (clearCart_effect 10%nat Scenario.three_A) as (_ & _ & _ & _ & H & _).
  exact (eq_trans (H eq_refl) eq_refl).
Defined.

(** ** Adding a product that has no line yet *)

Lemma existsb_false_not_in {A} (f : A -> bool) (l : list A) :
  (forall x, In x l -> f x = false) -> existsb f l = false.
Proof.
  induction l as [| a l IH]; simpl; intros H; [reflexivity |].
  rewrite (H a (or_introl eq_refl)). apply IH. intros x Hx. apply H. now right.
Qed.

(** X8.  Adding a product that has no line in the local list, from a
    resolved cart, when no request fails and the store accepts the line (the
    cart and the product are stored, the quantity is positive, the cart has
    no line for the product): exactly one line is appended to the stored
    lines, for that cart and product with the given quantity; the local list
    is then reloaded from the store and success is announced. *)
Theorem addItem_inserts_new_line
        (user : option Uuid) (items : list CartItem) (cid : Uuid)
        (product : Product) (qty : Z) (w : World) :
  faults (server w) = [] ->
  find (fun item => Nat.eqb (item_product_id item) (product_id product)) items = None ->
  In cid (map cart_id (carts (db (server w)))) ->
  In (product_id product) (map product_id (products (db (server w)))) ->
  0 < qty ->
  ~ In (cid, product_id product) (map line_key (cart_items (db (server w)))) ->
  cart_items (db (server (run (addItem user items (Some cid) product qty) w))) =
    cart_items (db (server w)) ++
    [{| ci_id := next_uuid (db (server w)); ci_cart_id := cid;
        ci_product_id := product_id product; ci_quantity := qty |}] /\
  (exists cid',
     st_cartId (state (run (addItem user items (Some cid) product qty) w)) = Some cid' /\
     st_items (state (run (addItem user items (Some cid) product qty) w)) =
       loaded_items cid' (db (server (run (addItem user items (Some cid) product qty) w)))) /\
  toasts (browser (run (addItem user items (Some cid) product qty) w)) =
    toast_success "Producto agregado al carrito" :: toasts (browser w).
Proof.
  intros Hf Hfind Hcart Hprod Hqty Hnew.
  unfold run, addItem, try_catch.
  erewrite bind_returned; [| reflexivity].
  rewrite Hfind.
  assert (Hins : Postgres.insert_cart_item cid (product_id product) qty (db (server w)) =
                 (done,
                  {| products := products (db (server w)); carts := carts (db (server w));
                     cart_items := cart_items (db (server w)) ++
                       [{| ci_id := next_uuid (db (server w)); ci_cart_id := cid;
                           ci_product_id := product_id product; ci_quantity := qty |}];
                     orders := orders (db (server w));
                     order_items := order_items (db (server w));
                     next_uuid := S (next_uuid (db (server w))) |})).
  { unfold Postgres.insert_cart_item.
    rewrite (existsb_key_in cart_id _ _ Hcart), (existsb_key_in product_id _ _ Hprod).
    replace (qty <=? 0) with false by (symmetry; apply Z.leb_gt; lia).
    rewrite existsb_false_not_in; [reflexivity |].
    intros r Hr. apply andb_false_iff.
    destruct (Nat.eqb_spec (ci_cart_id r) cid) as [Ec | Ec]; [| now left].
    destruct (Nat.eqb_spec (ci_product_id r) (product_id product)) as [Ep | Ep]; [| now right].
    exfalso. apply Hnew. apply in_map_iff. exists r. split; [| exact Hr].
    unfold line_key. now rewrite Ec, Ep. }
  set (w1 := with_server w
               {| db := snd (Postgres.insert_cart_item cid (product_id product) qty
                                                       (db (server w)));
                  faults := [];
                  log := (InsertCartItem cid (product_id product) qty,
                          succeeded (fst (Postgres.insert_cart_item cid (product_id product) qty
                                                                    (db (server w)))))
                           :: log (server w) |}).
  assert (Hreq : request (InsertCartItem cid (product_id product) qty)
                         (Postgres.insert_cart_item cid (product_id product) qty) w =
                 (Returned (fst (Postgres.insert_cart_item cid (product_id product) qty
                                                           (db (server w)))), w1))
    by (apply request_ok; exact Hf).
  destruct (refreshCart_no_fault user w1 eq_refl)
    as (cid' & Hcid & _ & Hitems & Hrows & _ & _ & Htoasts).
  assert (Hrc : refreshCart user w1 = (Returned tt, run (refreshCart user) w1)).
  { pose proof (never_throws_result (refreshCart user) w1 (refreshCart_returns user)) as Hret.
    unfold result, run in *. destruct (refreshCart user w1) as [r w2].
    cbn [fst snd] in *. now subst r. }
  remember (run (refreshCart user) w1) as w2 eqn:Hw2.
  erewrite (bind_returned (bind _ _) _ w tt w2);
    [| erewrite bind_returned; [exact Hrc | exact Hreq]].
  assert (Hrows1 : cart_items (db (server w1)) =
                   cart_items (db (server w)) ++
                   [{| ci_id := next_uuid (db (server w)); ci_cart_id := cid;
                       ci_product_id := product_id product; ci_quantity := qty |}]).
  { subst w1. cbn [server with_server db]. rewrite Hins. reflexivity. }
  cbn. rewrite Hrows, Hrows1, Htoasts.
  split; [reflexivity |]. split; [| reflexivity].
  exists cid'. split; assumption.
Qed.

Lemma addItem_inserts_new_line_witness :
  faults (server Scenario.customer_two_A) = [] /\
  map (fun r => (ci_product_id r, ci_quantity r))
      (cart_items (db (server Scenario.customer_cart))) = [(1%nat, 2); (2%nat, 1)].
Proof.
  split; [reflexivity |].
  destruct (addItem_inserts_new_line (Some Scenario.customer)
              (rendered_items Scenario.customer_two_A) 10%nat Scenario.product_B 1
              Scenario.customer_two_A) as (Hrows & _).
  - reflexivity.
  - reflexivity.
  - simpl. now left.
  - simpl. tauto.
  - lia.
  - simpl. intros [H | []]. discriminate.
  - exact (eq_trans (f_equal (map (fun r => (ci_product_id r, ci_quantity r))) Hrows) eq_refl).
Defined.

(** ** Adding a product when the cart cannot be resolved *)

Lemma getOrCreateCart_keeps_lines user w :
  cart_items (db (server (run (getOrCreateCart user) w))) = cart_items (db (server w)).
Proof.
  assert (H : preserves (on_db (fun d => cart_items d = cart_items (db (server w))))
                        (getOrCreateCart user)).
  { unfold getOrCreateCart. preserve.
    - intros d H. now rewrite select_cart_db.
    - intros d H. now rewrite insert_cart_cart_items. }
  exact (H w eq_refl).
Qed.

(** X9.  The one failure [addItem] reports: with no cart resolved yet, if
    resolving it throws (the cart could not be inserted), [addItem] shows
    the error notice, logs the error, sends no further request and leaves the
    stored lines and the local list as they were. *)
Theorem addItem_reports_unresolved_cart
        (user : option Uuid) (items : list CartItem) (product : Product) (qty : Z)
        (w : World) (e : Exception) :
  result (getOrCreateCart user) w = Thrown e ->
  result (addItem user items None product qty) w = Returned tt /\
  toasts (browser (run (addItem user items None product qty) w)) =
    toast_error "Error al agregar producto" :: toasts (browser w) /\
  console (browser (run (addItem user items None product qty) w)) =
    ("", e) :: console (browser w) /\
  server (run (addItem user items None product qty) w) =
    server (run (getOrCreateCart user) w) /\
  cart_items (db (server (run (addItem user items None product qty) w))) =
    cart_items (db (server w)) /\
  state (run (addItem user items None product qty) w) = state w.
Proof.
  intros Hthrow.
  destruct (getOrCreateCart_keeps_page user w) as (Hst & Hto & Hco).
  pose proof (getOrCreateCart_keeps_lines user w) as Hlines.
  unfold result, run in *. unfold addItem, try_catch.
  destruct (getOrCreateCart user w) as [r w1] eqn:Hg. cbn [fst snd] in *. subst r.
  erewrite bind_thrown; [| exact Hg].
  cbn. rewrite Hto, Hco, Hst, Hlines. repeat split.
Qed.

Lemma addItem_reports_unresolved_cart_witness :
  result (getOrCreateCart None) Scenario.first_visit_insert_fails =
    Thrown (PostgrestException ServiceFailure) /\
  toasts (browser (run (addItem None [] None Scenario.product_A 1)
                       Scenario.first_visit_insert_fails)) =
    [toast_error "Error al agregar producto"].
Proof.
  split; [reflexivity |].
  destruct (addItem_reports_unresolved_cart None [] Scenario.product_A 1
              Scenario.first_visit_insert_fails (PostgrestException ServiceFailure) eq_refl)
    as (_ & Htoasts & _).
  exact (eq_trans Htoasts eq_refl).
Defined.

(** ** Checkout: the payment step *)

(** X10.  The payment step never contacts the data service.  With a method
    other than [card] it moves on to the confirmation whatever the card
    fields hold; with [card] it moves on when the four card fields are all
    non-empty, and otherwise shows an error and leaves the step as it is. *)
Theorem handlePaymentSubmit_validates
        (paymentMethod : string) (cardData : CardData) (w : World) :
  server (run (handlePaymentSubmit paymentMethod cardData) w) = server w /\
  (paymentMethod <> "card" ->
   st_step (state (run (handlePaymentSubmit paymentMethod cardData) w)) = confirmation /\
   toasts (browser (run (handlePaymentSubmit paymentMethod cardData) w)) = toasts (browser w)) /\
  (paymentMethod = "card" ->
   card_number cardData = "" \/ card_expiry cardData = "" \/
   card_cvv cardData = "" \/ card_name cardData = "" ->
   state (run (handlePaymentSubmit paymentMethod cardData) w) = state w /\
   toasts (browser (run (handlePaymentSubmit paymentMethod cardData) w)) =
     toast_error "Por favor completa los datos de la tarjeta" :: toasts (browser w)) /\
  (paymentMethod = "card" ->
   card_number cardData <> "" -> card_expiry cardData <> "" ->
   card_cvv cardData <> "" -> card_name cardData <> "" ->
   st_step (state (run (handlePaymentSubmit paymentMethod cardData) w)) = confirmation /\
   toasts (browser (run (handlePaymentSubmit paymentMethod cardData) w)) = toasts (browser w)).
Proof.
  unfold run, handlePaymentSubmit, blank. repeat split.
  - destruct (_ && _); reflexivity.
  - apply String.eqb_neq in H. rewrite H. reflexivity.
  - apply String.eqb_neq in H. rewrite H. reflexivity.
  - subst paymentMethod. cbn [String.eqb Ascii.eqb Bool.eqb andb].
    destruct H0 as [-> | [-> | [-> | ->]]]; cbn; rewrite ?orb_true_r; reflexivity.
  - subst paymentMethod. cbn [String.eqb Ascii.eqb Bool.eqb andb].
    destruct H0 as [-> | [-> | [-> | ->]]]; cbn; rewrite ?orb_true_r; reflexivity.
  - subst paymentMethod. apply String.eqb_neq in H0, H1, H2, H3.
    rewrite H0, H1, H2, H3. reflexivity.
  - subst paymentMethod. apply String.eqb_neq in H0, H1, H2, H3.
    rewrite H0, H1, H2, H3. reflexivity.
Qed.

Lemma handlePaymentSubmit_validates_witness :
  st_step (state (run (handlePaymentSubmit "cash" Scenario.empty_card)
                      (Scenario.visitor Scenario.catalog []))) = confirmation /\
  toasts (browser (run (handlePaymentSubmit "card" Scenario.empty_card)
                       (Scenario.visitor Scenario.catalog []))) =
    [toast_error "Por favor completa los datos de la tarjeta"] /\
  st_step (state (run (handlePaymentSubmit "card" Scenario.card_form)
                      (Scenario.visitor Scenario.catalog []))) = confirmation.
Proof.
  split; [| split].
  - destruct (handlePaymentSubmit_validates "cash" Scenario.empty_card
                (Scenario.visitor Scenario.catalog [])) as (_ & H & _).
    apply H. discriminate.
  - destruct (handlePaymentSubmit_validates "card" Scenario.empty_card
                (Scenario.visitor Scenario.catalog [])) as (_ & _ & H & _).
    exact (eq_trans (proj2 (H eq_refl (or_introl eq_refl))) eq_refl).
  - destruct (handlePaymentSubmit_validates "card" Scenario.card_form
                (Scenario.visitor Scenario.catalog [])) as (_ & _ & _ & H).
    apply H; [reflexivity | discriminate ..].
Defined.
